(** * pcdsdevices.daq: the LCLS1 DAQ flyer

    A shallow embedding of [src/pcdsdevices/daq.py]: the [Daq] class that
    drives a [pydaq.Control] endpoint, the module-level plan helpers and the
    order in which the module's top level binds its names.

    Python values are a tagged union, dictionaries with string keys are
    [gmap string _], floats are IEEE binary64 ([PrimFloat.float], which is
    what CPython uses), exceptions are explicit results, and the methods of
    [Daq] are written in a state-and-error monad over the object's fields
    and the history of calls made to the endpoint. *)

From Stdlib Require Import ZArith String List Bool Lia.
From Stdlib Require Import Floats.PrimFloat Floats.SpecFloat Floats.FloatOps.
From stdpp Require Import gmap strings.

Local Open Scope string_scope.
Local Open Scope Z_scope.

(** ** Exceptions and results *)

(** The exception classes that occur in the module.  All of them derive from
    [Exception]; [OtherException] stands for any further subclass of
    [Exception] that the endpoint may raise. *)
Inductive exn_class :=
| RuntimeError | ValueError | TypeError | AttributeError | KeyError
| NameError | UnboundLocalError | OverflowError | ImportError
| OtherException.

Record exn := Exn { exn_cls : exn_class; exn_msg : string }.

Definition exn_class_eqb (a b : exn_class) : bool :=
  match a, b with
  | RuntimeError, RuntimeError | ValueError, ValueError
  | TypeError, TypeError | AttributeError, AttributeError
  | KeyError, KeyError | NameError, NameError
  | UnboundLocalError, UnboundLocalError | OverflowError, OverflowError
  | ImportError, ImportError | OtherException, OtherException => true
  | _, _ => false
  end.

(** [isinstance(e, c)]: [UnboundLocalError] is a subclass of [NameError]. *)
Definition isinstance_exn (e : exn) (c : exn_class) : bool :=
  exn_class_eqb (exn_cls e) c
  || match exn_cls e, c with UnboundLocalError, NameError => true | _, _ => false end.

(** [except (c1, c2, ...)] *)
Definition caught_by (cs : list exn_class) (e : exn) : bool :=
  existsb (isinstance_exn e) cs.

(** [except Exception]: every class above derives from [Exception]. *)
Definition except_Exception (e : exn) : bool := true.

Inductive result (A : Type) : Type :=
| Ok (a : A)
| Err (e : exn).
Arguments Ok {A} a.
Arguments Err {A} e.

Definition raises {A} (c : exn_class) (r : result A) : Prop :=
  match r with
  | Err e => exn_cls e = c
  | Ok _ => False
  end.

Definition is_Ok {A} (r : result A) : bool :=
  match r with Ok _ => true | Err _ => false end.

(** ** Python values *)

(** [_mode_enum = enum.Enum('ScanMode', 'on manual auto', start=0)] *)
Inductive ScanMode := on | manual | auto.

(** [_state_enum = enum.Enum('PydaqState',
    'Disconnected Connected Configured Open Running', start=0)]; the [state]
    property returns the member's name. *)
Inductive PydaqState := Disconnected | Connected | Configured | Open | Running.

(** What a control device reports. *)
Inductive reading :=
| RInt (z : Z)
| RFloat (f : float)
| RStr (s : string).

(** A device of the [controls] dictionary: either attribute may be absent. *)
Record device := Device { position : option reading; value : option reading }.

Inductive pyval :=
| VNone
| VBool (b : bool)
| VInt (z : Z)
| VFloat (f : float)
| VStr (s : string)
| VMode (m : ScanMode)                      (* a member of [_mode_enum] *)
| VDevices (d : list (string * device))     (* a [{str: device}] dict, in insertion order *)
| VPairs (l : list (string * reading))      (* a list of [(str, val)] tuples *)
| VIntList (l : list Z)                     (* a list of ints *)
| VObj (repr : string).                     (* any other object *)

Definition is_None (v : pyval) : bool :=
  match v with VNone => true | _ => false end.

(** Truth value of an object, as [if v:] tests it. *)
Definition truthy (v : pyval) : bool :=
  match v with
  | VNone => false
  | VBool b => b
  | VInt z => negb (z =? 0)
  | VFloat f => negb (PrimFloat.eqb f 0%float)
  | VStr s => negb (String.eqb s "")
  | VMode _ => true
  | VDevices d => match d with [] => false | _ => true end
  | VPairs l => match l with [] => false | _ => true end
  | VIntList l => match l with [] => false | _ => true end
  | VObj _ => true
  end.

(** *** Numbers *)

(** [float(z)] for an int: round to nearest even, [OverflowError] when the
    int is too large for a float. *)
Definition float_of_Z (z : Z) : float :=
  SF2Prim (binary_normalize prec emax z 0 false).

Definition float_of_int (z : Z) : result float :=
  let f := float_of_Z z in
  if PrimFloat.is_infinity f
  then Err (Exn OverflowError "int too large to convert to float")
  else Ok f.

(** [int(f)] for a float: truncation toward zero. *)
Definition int_of_float (f : float) : result Z :=
  match Prim2SF f with
  | S754_zero _ => Ok 0
  | S754_infinity _ =>
      Err (Exn OverflowError "cannot convert float infinity to integer")
  | S754_nan => Err (Exn ValueError "cannot convert float NaN to integer")
  | S754_finite s m e =>
      let a := Z.shiftl (Z.pos m) e in
      Ok (if s then - a else a)
  end.

(** [v < 1], as [_check_duration] evaluates it. *)
Definition py_lt_1 (v : pyval) : result bool :=
  match v with
  | VBool b => Ok (Z.b2z b <? 1)
  | VInt z => Ok (z <? 1)
  | VFloat f => Ok (PrimFloat.ltb f 1%float)
  | _ => Err (Exn TypeError "'<' not supported between these operands")
  end.

(** [v - k] for an int [k]. *)
Definition py_sub_int (v : pyval) (k : Z) : result pyval :=
  match v with
  | VBool b => Ok (VInt (Z.b2z b - k))
  | VInt z => Ok (VInt (z - k))
  | VFloat f =>
      match float_of_int k with
      | Ok g => Ok (VFloat (PrimFloat.sub f g))
      | Err e => Err e
      end
  | _ => Err (Exn TypeError "unsupported operand type(s) for -")
  end.

(** [v * c] for a float [c]. *)
Definition py_mul_float (v : pyval) (c : float) : result pyval :=
  match v with
  | VBool b =>
      match float_of_int (Z.b2z b) with
      | Ok g => Ok (VFloat (PrimFloat.mul g c))
      | Err e => Err e
      end
  | VInt z =>
      match float_of_int z with
      | Ok g => Ok (VFloat (PrimFloat.mul g c))
      | Err e => Err e
      end
  | VFloat f => Ok (VFloat (PrimFloat.mul f c))
  | _ => Err (Exn TypeError "unsupported operand type(s) for *")
  end.

(** [len(v)] *)
Definition py_len (v : pyval) : result Z :=
  match v with
  | VStr s => Ok (Z.of_nat (String.length s))
  | VDevices d => Ok (Z.of_nat (List.length d))
  | VPairs l => Ok (Z.of_nat (List.length l))
  | VIntList l => Ok (Z.of_nat (List.length l))
  | _ => Err (Exn TypeError "object has no len()")
  end.

(** [d[key]] on a dict with string keys. *)
Definition py_getitem (d : gmap string pyval) (key : string) : result pyval :=
  match d !! key with
  | Some v => Ok v
  | None => Err (Exn KeyError key)
  end.

(** The builtin [any] takes exactly one argument, an iterable. *)
Definition py_any (args : list pyval) : result bool :=
  match args with
  | [it] =>
      match it with
      | VStr s => Ok (negb (String.eqb s ""))
      | VDevices d => Ok (existsb (fun kv => negb (String.eqb (fst kv) "")) d)
      | VPairs l => Ok (match l with [] => false | _ => true end)
      | VIntList l => Ok (existsb (fun z => negb (z =? 0)) l)
      | _ => Err (Exn TypeError "object is not iterable")
      end
  | _ => Err (Exn TypeError "any() takes exactly one argument")
  end.

(** ** The enumerations *)

Definition ScanMode_of_name (s : string) : option ScanMode :=
  if String.eqb s "on" then Some on
  else if String.eqb s "manual" then Some manual
  else if String.eqb s "auto" then Some auto
  else None.

Definition ScanMode_of_value (z : Z) : option ScanMode :=
  match z with
  | 0 => Some on
  | 1 => Some manual
  | 2 => Some auto
  | _ => None
  end.

(** [self._mode_enum(v)]: lookup of a member by value.  A member is returned
    as it is; otherwise the value is looked up by hash and equality, so that
    [True] and [1.0] find the member of value [1]. *)
Definition _mode_enum (v : pyval) : result pyval :=
  let found (o : option ScanMode) :=
    match o with
    | Some m => Ok (VMode m)
    | None => Err (Exn ValueError "not a valid ScanMode")
    end in
  match v with
  | VMode m => Ok (VMode m)
  | VInt z => found (ScanMode_of_value z)
  | VBool b => found (ScanMode_of_value (Z.b2z b))
  | VFloat f =>
      found (if PrimFloat.eqb f 0%float then Some on
             else if PrimFloat.eqb f 1%float then Some manual
             else if PrimFloat.eqb f 2%float then Some auto
             else None)
  | _ => found None
  end.

(** [self._state_enum(num).name] *)
Definition _state_enum (num : Z) : result PydaqState :=
  match num with
  | 0 => Ok Disconnected
  | 1 => Ok Connected
  | 2 => Ok Configured
  | 3 => Ok Open
  | 4 => Ok Running
  | _ => Err (Exn ValueError "not a valid PydaqState")
  end.

Definition PydaqState_name (s : PydaqState) : string :=
  match s with
  | Disconnected => "Disconnected"
  | Connected => "Connected"
  | Configured => "Configured"
  | Open => "Open"
  | Running => "Running"
  end.

(** [state in ('Connected', 'Configured')] *)
Definition in_Connected_Configured (s : PydaqState) : bool :=
  match s with Connected | Configured => true | _ => false end.

(** [state in ('Configured', 'Open')] *)
Definition in_Configured_Open (s : PydaqState) : bool :=
  match s with Configured | Open => true | _ => false end.

(** [state == 'Open'] *)
Definition is_Open (s : PydaqState) : bool :=
  match s with Open => true | _ => false end.

(** [v == self._mode_enum.on]: members of a plain [Enum] compare by identity. *)
Definition eq_mode_on (v : pyval) : bool :=
  match v with VMode on => true | _ => false end.

(** ** The controller object, the endpoint and the world *)

(** A [pydaq.Control] object. *)
Record Control := { ctl_host : string; ctl_platform : Z }.

(** The engine's hook slot holds [None] or the bound method
    [daq._interpret_message]. *)
Inductive hook := interpret_message_hook.

Record RunEngine := { msg_hook : option hook }.

Record Daq := {
  name : string;
  _control : option Control;
  _config : option (gmap string pyval);
  _host : string;
  _plat : Z;
  _is_bluesky : bool;
  _RE : option RunEngine
}.

(** The calls the module makes to pydaq (§6 of the design: the control
    endpoint API). *)
Inductive call :=
| pydaq_Control (host : string) (platform : Z)
| control_connect
| control_disconnect
| control_state
| control_configure (kwargs : gmap string pyval)
| control_begin (kwargs : gmap string pyval)
| control_stop
| control_end
| control_endrun.


Definition is_control_begin (c : call) : bool :=
  match c with control_begin _ => true | _ => false end.

Definition is_control_configure (c : call) : bool :=
  match c with control_configure _ => true | _ => false end.

Definition is_control_stop (c : call) : bool :=
  match c with control_stop => true | _ => false end.

Definition is_control_disconnect (c : call) : bool :=
  match c with control_disconnect => true | _ => false end.

(** A thread handed to [threading.Thread(target=..., args=...)]. *)
Inductive thread :=
| start_thread_args (control : option Control) (status : nat)
    (events duration use_l3t controls : pyval)
| finish_thread_args (control : option Control) (status : nat).

(** The world a method runs in: the one [Daq] object, the calls made to the
    endpoint so far (latest first), the [Status] objects created so far
    (in creation order; [None] while not finished) and the threads started
    (latest first). *)
Record World := {
  daq : Daq;
  calls : list call;
  statuses : list (option bool);
  threads : list thread
}.

Definition with_daq (d : Daq) (w : World) : World :=
  {| daq := d; calls := calls w; statuses := statuses w; threads := threads w |}.

Definition record_call (c : call) (w : World) : World :=
  {| daq := daq w; calls := c :: calls w; statuses := statuses w;
     threads := threads w |}.

Definition with_control (c : option Control) (d : Daq) : Daq :=
  {| name := name d; _control := c; _config := _config d; _host := _host d;
     _plat := _plat d; _is_bluesky := _is_bluesky d; _RE := _RE d |}.

Definition with_config (c : option (gmap string pyval)) (d : Daq) : Daq :=
  {| name := name d; _control := _control d; _config := c; _host := _host d;
     _plat := _plat d; _is_bluesky := _is_bluesky d; _RE := _RE d |}.

Definition with_RE (r : option RunEngine) (d : Daq) : Daq :=
  {| name := name d; _control := _control d; _config := _config d;
     _host := _host d; _plat := _plat d; _is_bluesky := _is_bluesky d;
     _RE := r |}.

(** ** The monad of methods: state and exceptions *)

Definition M (A : Type) : Type := World -> result A * World.

Definition ret {A} (a : A) : M A := fun w => (Ok a, w).

Definition raise {A} (c : exn_class) (msg : string) : M A :=
  fun w => (Err (Exn c msg), w).

Definition lift {A} (r : result A) : M A := fun w => (r, w).

Definition bind {A B} (m : M A) (k : A -> M B) : M B :=
  fun w =>
    match m w with
    | (Ok a, w') => k a w'
    | (Err e, w') => (Err e, w')
    end.

Notation "'let!' x ':=' m 'in' k" := (bind m (fun x => k))
  (at level 10, x pattern, m at level 100, k at level 200).

Notation "m '>>' k" := (bind m (fun _ => k))
  (at level 190, right associativity).

(** [try: body  except <catches>: handler]; an exception the clause does not
    catch, or one the handler raises, propagates. *)
Definition try_except {A} (body : M A) (catches : exn -> bool)
    (handler : M A) : M A :=
  fun w =>
    match body w with
    | (Err e, w') => if catches e then handler w' else (Err e, w')
    | ok => ok
    end.

Definition get_daq : M Daq := fun w => (Ok (daq w), w).

Definition set_control (c : option Control) : M unit :=
  fun w => (Ok tt, with_daq (with_control c (daq w)) w).

Definition set_config (c : option (gmap string pyval)) : M unit :=
  fun w => (Ok tt, with_daq (with_config c (daq w)) w).

(** [Status(obj=self)]: a new, unfinished status; its index is its identity. *)
Definition new_Status : M nat :=
  fun w =>
    (Ok (List.length (statuses w)),
     {| daq := daq w; calls := calls w;
        statuses := statuses w ++ [None]; threads := threads w |}).

(** [status._finished(success=b)] *)
Definition _finished (status : nat) (success : bool) : M unit :=
  fun w =>
    (Ok tt,
     {| daq := daq w; calls := calls w;
        statuses := <[status := Some success]> (statuses w);
        threads := threads w |}).

(** [threading.Thread(target=..., args=...).start()] *)
Definition Thread_start (t : thread) : M unit :=
  fun w =>
    (Ok tt,
     {| daq := daq w; calls := calls w; statuses := statuses w;
        threads := t :: threads w |}).

(** ** The class [Daq] *)

(** A method that only reads the object is a function of [self] with a
    [result]; a method that calls the endpoint or assigns to a field runs
    in [M]. *)

Definition rbind {A B} (r : result A) (k : A -> result B) : result B :=
  match r with
  | Ok a => k a
  | Err e => Err e
  end.

Notation "'let?' x ':=' r 'in' k" := (rbind r (fun x => k))
  (at level 10, x pattern, r at level 100, k at level 200).

(** [try: body  except <catches>: handler] where nothing is assigned. *)
Definition catch {A} (body : result A) (catches : exn -> bool)
    (handler : result A) : result A :=
  match body with
  | Err e => if catches e then handler else Err e
  | ok => ok
  end.

(** [BEGIN_TIMEOUT = 2]: "Wait up to this many seconds for daq to be ready
    for a begin call". *)
Definition BEGIN_TIMEOUT : float := 2%float.

(** [dt = 0.1]: the float nearest to one tenth. *)
Definition dt : float := 0x1.999999999999ap-4%float.

(** [dict(events=..., duration=..., record=..., use_l3t=..., controls=...,
    mode=...)] *)
Definition config_dict (events duration record use_l3t controls mode : pyval)
    : gmap string pyval :=
  list_to_map
    [("events", events); ("duration", duration); ("record", record);
     ("use_l3t", use_l3t); ("controls", controls); ("mode", mode)].

Definition default_config : gmap string pyval :=
  config_dict VNone VNone (VBool false) (VBool false) VNone (VMode on).

(** The [connected] property. *)
Definition connected (self : Daq) : bool :=
  match _control self with Some _ => true | None => false end.

(** The [configured] property. *)
Definition configured (self : Daq) : bool :=
  match _config self with Some _ => true | None => false end.

(** [read_configuration]: a copy of the stored dictionary, or of the default
    one when nothing is stored. *)
Definition read_configuration (self : Daq) : gmap string pyval :=
  match _config self with
  | None => default_config
  | Some config => config
  end.

(** [_check_duration] *)
Definition unreliable_duration : string :=
  "Duration argument less than 1 is unreliable. Please use the events argument to specify the length of very short runs.".

Definition _check_duration (duration : pyval) : result unit :=
  let? small := (if negb (is_None duration) then py_lt_1 duration else Ok false) in
  if small
  then Err (Exn RuntimeError unreliable_duration)
  else Ok tt.

(** [_ctrl_arg]: [device.position], or [device.value] when the device has no
    [position]; an object without [items] is not a dictionary. *)
Definition device_reading (dev : device) : result reading :=
  match position dev with
  | Some val => Ok val
  | None =>
      match value dev with
      | Some val => Ok val
      | None => Err (Exn AttributeError "object has no attribute 'value'")
      end
  end.

Fixpoint ctrl_pairs (items : list (string * device))
    : result (list (string * reading)) :=
  match items with
  | [] => Ok []
  | (key, dev) :: rest =>
      let? val := device_reading dev in
      let? ctrl_arg := ctrl_pairs rest in
      Ok ((key, val) :: ctrl_arg)
  end.

Definition _ctrl_arg (ctrl_dict : pyval) : result pyval :=
  match ctrl_dict with
  | VDevices items =>
      let? ctrl_arg := ctrl_pairs items in Ok (VPairs ctrl_arg)
  | _ => Err (Exn AttributeError "object has no attribute 'items'")
  end.

(** [_config_args] *)
Definition _config_args (self : Daq) (record use_l3t controls : pyval)
    : result (gmap string pyval) :=
  let config_args : gmap string pyval := ∅ in
  let config := read_configuration self in
  let? config_args :=
    (if is_None record
     then let? r := py_getitem config "record" in
          Ok (<["record" := r]> config_args)
     else Ok (<["record" := record]> config_args)) in
  let config_args :=
    if truthy use_l3t
    then <["l3t_events" := VInt 0]> config_args
    else <["events" := VInt 0]> config_args in
  let? config_args :=
    (if negb (is_None controls)
     then let? c := _ctrl_arg controls in
          Ok (<["controls" := c]> config_args)
     else Ok config_args) in
  Ok (filter (fun kv : string * pyval => is_None kv.2 = false) config_args).

(** [describe_configuration] *)
Record field_desc := {
  source : string;
  dtype : string;
  shape : option (list Z)
}.

Definition describe_configuration (self : Daq)
    : result (gmap string field_desc) :=
  let? controls_shape :=
    catch
      (let config := read_configuration self in
       let? c := py_getitem config "control" in
       let? n := py_len c in
       Ok (Some [n; 2]))
      (caught_by [RuntimeError; AttributeError])
      (Ok None) in
  Ok (list_to_map
        [("events",
          {| source := "daq_events_in_run"; dtype := "number"; shape := None |});
         ("duration",
          {| source := "daq_run_duration"; dtype := "number"; shape := None |});
         ("use_l3t",
          {| source := "daq_use_l3trigger"; dtype := "number"; shape := None |});
         ("record",
          {| source := "daq_record_run"; dtype := "number"; shape := None |});
         ("controls",
          {| source := "daq_control_vars"; dtype := "array";
             shape := controls_shape |});
         ("always_on",
          {| source := "daq_always_on"; dtype := "number"; shape := None |})]).

(** The condition of the first [if] of [_begin_args]:
    [all((self._is_bluesky, not config['mode'] == self._mode_enum.on,
          not self.state == 'Open'))] *)
Definition opens_without_events (self : Daq) (mode : pyval) (st : PydaqState)
    : bool :=
  forallb id [_is_bluesky self; negb (eq_mode_on mode); negb (is_Open st)].

Section Runtime.

(** The attributes that the class object [ScanMode] resolves besides its
    members ([__doc__], [__members__], [mro], ...); they are those of the
    interpreter's [enum] module. *)
Variable class_attr : string -> option pyval.

(** [int(s)] on text, as the interpreter parses it; [None] when it raises
    [ValueError]. *)
Variable int_of_str : string -> option Z.

(** The endpoint: its answer to a call, given the calls made to it before
    (latest first).  [control.state()] answers a number; the answers of the
    other calls are not used. *)
Variable endpoint : list call -> call -> result Z.

(** [getattr(self._mode_enum, name)]: the name of an attribute must be a
    string. *)
Definition getattr_mode_enum (name : pyval) : result pyval :=
  match name with
  | VStr s =>
      match ScanMode_of_name s with
      | Some m => Ok (VMode m)
      | None =>
          match class_attr s with
          | Some v => Ok v
          | None => Err (Exn AttributeError s)
          end
      end
  | _ => Err (Exn TypeError "attribute name must be string")
  end.

(** [int(v)] *)
Definition py_int (v : pyval) : result Z :=
  match v with
  | VBool b => Ok (Z.b2z b)
  | VInt z => Ok z
  | VFloat f => int_of_float f
  | VStr s =>
      match int_of_str s with
      | Some z => Ok z
      | None => Err (Exn ValueError "invalid literal for int()")
      end
  | _ => Err (Exn TypeError "int() argument must be a string or a number")
  end.

(** A call to the endpoint: it is recorded, and it returns or raises as the
    endpoint decides. *)
Definition rpc (c : call) : M Z :=
  fun w => (endpoint (calls w) c, record_call c w).

(** A method call on what a variable holds: on [None] it is an
    [AttributeError]. *)
Definition on_control (control : option Control) (c : call) : M Z :=
  match control with
  | Some _ => rpc c
  | None => raise AttributeError "'NoneType' object has no attribute"
  end.

(** The [state] property. *)
Definition state : M PydaqState :=
  let! self := get_daq in
  if connected self
  then let! num := on_control (_control self) control_state in
       lift (_state_enum num)
  else ret Disconnected.

(** [connect] *)
Definition connect : M unit :=
  let! self := get_daq in
  match _control self with
  | None =>
      try_except
        (rpc (pydaq_Control (_host self) (_plat self)) >>
         set_control
           (Some {| ctl_host := _host self; ctl_platform := _plat self |}) >>
         rpc control_connect >>
         ret tt)
        except_Exception
        (set_control None)
  | Some _ => ret tt
  end.

(** [disconnect] *)
Definition disconnect : M unit :=
  let! self := get_daq in
  (match _control self with
   | Some _ => rpc control_disconnect >> ret tt
   | None => ret tt
   end) >>
  set_control None >>
  set_config None.

(** The decorator [check_connect]. *)
Definition check_connect {A} (f : M A) : M A :=
  let! self := get_daq in
  (if negb (connected self) then connect else ret tt) >>
  let! self := get_daq in
  if connected self
  then f
  else raise RuntimeError "Could not connect to DAQ".

(** [stop] *)
Definition stop : M unit :=
  check_connect
    (let! self := get_daq in
     on_control (_control self) control_stop >> ret tt).

(** The resolution of [mode] in [configure]:
    [try: mode = getattr(self._mode_enum, mode)
     except AttributeError:
         try: mode = self._mode_enum(mode)
         except ValueError: raise ValueError(...)] *)
Definition resolve_mode (mode : pyval) : result pyval :=
  catch (getattr_mode_enum mode)
    (caught_by [AttributeError])
    (catch (_mode_enum mode)
       (caught_by [ValueError])
       (Err (Exn ValueError "is not a valid scan mode!"))).

(** [configure]: the function that [check_connect] decorates, and the
    decorated method. *)
Definition configure_body
    (events duration record use_l3t controls mode : pyval)
    : M (gmap string pyval * gmap string pyval) :=
  let! st := state in
  (if negb (in_Connected_Configured st)
   then raise RuntimeError
          ("Cannot configure from state " ++ PydaqState_name st ++ "!")
   else ret tt) >>
  lift (_check_duration duration) >>
  let! self := get_daq in
  let old := read_configuration self in
  let! mode :=
    lift (if is_None mode then py_getitem old "mode" else Ok mode) in
  let! mode := lift (resolve_mode mode) in
  let! config_args := lift (_config_args self record use_l3t controls) in
  try_except
    (on_control (_control self) (control_configure config_args) >>
     set_config
       (Some (config_dict events duration record use_l3t controls mode)))
    except_Exception
    (set_config None) >>
  let! self := get_daq in
  let new := read_configuration self in
  ret (old, new).

Definition configure (events duration record use_l3t controls mode : pyval)
    : M (gmap string pyval * gmap string pyval) :=
  check_connect
    (configure_body events duration record use_l3t controls mode).

(** [_begin_args].  The tuple handed to [all] is built before [all] runs, so
    [config['mode']] is read and the endpoint's state is queried on every
    call; nothing after that calls the endpoint. *)
Definition _begin_args (events duration use_l3t controls : pyval)
    : M (gmap string pyval) :=
  let begin_args : gmap string pyval := ∅ in
  let! self := get_daq in
  let config := read_configuration self in
  let! mode := lift (py_getitem config "mode") in
  let! st := state in
  lift
    (let '(events, duration, use_l3t) :=
       if opens_without_events self mode st
       then (* Open a run without taking events *)
         (VInt 1, VNone, VBool false)
       else (events, duration, use_l3t) in
     let? (events, duration) :=
       (if is_None events && is_None duration
        then let? e := py_getitem config "events" in
             let? du := py_getitem config "duration" in
             Ok (e, du)
        else Ok (events, duration)) in
     let? begin_args :=
       (if negb (is_None events)
        then
          let? use_l3t :=
            (if is_None use_l3t && configured self
             then py_getitem config "use_l3t"
             else Ok use_l3t) in
          if truthy use_l3t
          then Ok (<["l3t_events" := events]> begin_args)
          else Ok (<["events" := events]> begin_args)
        else if negb (is_None duration)
        then
          let? secs := py_int duration in
          let? frac := py_sub_int duration secs in
          let? scaled := py_mul_float frac 1e9%float in
          let? nsec := py_int scaled in
          Ok (<["duration" := VIntList [secs; nsec]]> begin_args)
        else (* Run until manual stop *)
          Ok (<["events" := VInt 0]> begin_args)) in
     if is_None controls
     then
       let? ctrl_dict := py_getitem config "controls" in
       if negb (is_None ctrl_dict)
       then let? c := _ctrl_arg ctrl_dict in
            Ok (<["controls" := c]> begin_args)
       else Ok begin_args
     else
       let? c := _ctrl_arg controls in
       Ok (<["controls" := c]> begin_args)).

(** The loop of [start_thread]:
    [while tmo > 0:
         if self.state in ('Configured', 'Open'): break
         else: tmo -= dt]
    [tmo] starts as the int [2], which compares and subtracts as the float
    [2.0].  There is no sleep in the loop.  The loop is given fuel; [None]
    says that the fuel ran out. *)
Fixpoint wait_ready (fuel : nat) (tmo : float) : M (option unit) :=
  match fuel with
  | O => ret None
  | S fuel' =>
      if PrimFloat.ltb 0%float tmo
      then
        let! st := state in
        if in_Configured_Open st
        then ret (Some tt)
        else wait_ready fuel' (PrimFloat.sub tmo dt)
      else ret (Some tt)
  end.

(** [start_thread], the body of the thread that [kickoff] starts. *)
Definition start_thread (fuel : nat) (control : option Control) (status : nat)
    (events duration use_l3t controls : pyval) : M (option unit) :=
  let! begin_args := _begin_args events duration use_l3t controls in
  let tmo := BEGIN_TIMEOUT in
  let! finished := wait_ready fuel tmo in
  match finished with
  | None => ret None
  | Some _ =>
      let! st := state in
      if in_Configured_Open st
      then
        on_control control (control_begin begin_args) >>
        _finished status true >>
        ret (Some tt)
      else
        _finished status false >>
        ret (Some tt)
  end.

(** [kickoff]: the function that [check_connect] decorates, and the decorated
    method. *)
Definition kickoff_body (events duration use_l3t controls : pyval) : M nat :=
  lift (_check_duration duration) >>
  let! self := get_daq in
  (if negb (configured self)
   then configure VNone VNone (VBool false) (VBool false) VNone VNone >>
        ret tt
   else ret tt) >>
  let! begin_status := new_Status in
  let! self := get_daq in
  Thread_start
    (start_thread_args (_control self) begin_status
       events duration use_l3t controls) >>
  ret begin_status.

Definition kickoff (events duration use_l3t controls : pyval) : M nat :=
  check_connect (kickoff_body events duration use_l3t controls).

(** [finish_thread], the body of the thread that [_get_end_status] starts. *)
Definition finish_thread (control : option Control) (status : nat) : M unit :=
  try_except
    (on_control control control_end >> ret tt)
    (caught_by [RuntimeError])
    (ret tt) >>
  _finished status true.

(** [_get_end_status] *)
Definition _get_end_status : M nat :=
  let! end_status := new_Status in
  let! self := get_daq in
  Thread_start (finish_thread_args (_control self) end_status) >>
  ret end_status.

(** [complete] *)
Definition complete : M nat :=
  let! end_status := _get_end_status in
  let! self := get_daq in
  let config := read_configuration self in
  let! bounded :=
    lift (let? e := py_getitem config "events" in
          let? du := py_getitem config "duration" in
          py_any [e; du]) in
  (if negb bounded
   then (* Configured to run forever *) stop
   else ret tt) >>
  ret end_status.

End Runtime.

(** ** The module's global and the plan helpers *)

(** A message of a plan; a plan is a generator of messages, here the
    messages it yields. *)
Record Msg := { command : string }.

(** What [yield from] is handed: a generator, or the object that
    [functools.partial(...)] returns. *)
Inductive pyobj :=
| generator (msgs : list Msg)
| functools_partial (func : string) (flyers : list string).

(** [yield from x] starts with [iter(x)]: a partial object is callable, but
    it is not iterable. *)
Definition yield_from (x : pyobj) : list Msg * result unit :=
  match x with
  | generator msgs => (msgs, Ok tt)
  | functools_partial _ _ =>
      ([], Err (Exn TypeError "'functools.partial' object is not iterable"))
  end.

(** The module's global [_daq_instance]: unbound, or the one [Daq]. *)
Record Globals := { _daq_instance : option Daq }.

(** [register_daq] *)
Definition register_daq (d : Daq) (g : Globals) : Globals :=
  {| _daq_instance := Some d |}.

(** [daq._RE.msg_hook = h], on the registered object. *)
Definition set_msg_hook (h : option hook) (g : Globals) : result Globals :=
  match _daq_instance g with
  | None => Err (Exn UnboundLocalError "local variable 'daq' referenced before assignment")
  | Some d =>
      match _RE d with
      | None =>
          Err (Exn AttributeError "'NoneType' object has no attribute 'msg_hook'")
      | Some _ =>
          Ok {| _daq_instance := Some (with_RE (Some {| msg_hook := h |}) d) |}
      end
  end.

(** [daq_wrapper(plan)], run to its end by a consumer that takes every
    message: the messages it yields, how it ends, and the globals then.
    The local [daq] is the registered object once the first line has run. *)
Definition daq_wrapper (plan : list Msg) (g : Globals)
    : list Msg * result unit * Globals :=
  let try_body : list Msg * result unit * Globals :=
    match _daq_instance g with
    | None =>
        (* daq = _daq_instance *)
        ([], Err (Exn NameError "name '_daq_instance' is not defined"), g)
    | Some d =>
        (* daq._RE.msg_hook = daq._interpret_message *)
        match set_msg_hook (Some interpret_message_hook) g with
        | Err e => ([], Err e, g)
        | Ok g1 =>
            (* yield from functools.partial(fly_during_wrapper, flyers=[daq]) *)
            match yield_from (functools_partial "fly_during_wrapper" [name d]) with
            | (yielded, Err e) => (yielded, Err e, g1)
            | (yielded, Ok _) =>
                (* daq._RE.msg_hook = None *)
                match set_msg_hook None g1 with
                | Err e => (yielded, Err e, g1)
                | Ok g2 => (yielded, Ok tt, g2)
                end
            end
        end
    end in
  match try_body with
  | (yielded, Ok _, g') => (yielded, Ok tt, g')
  | (yielded, Err e, g') =>
      if except_Exception e
      then
        (* daq._RE.msg_hook = None; raise *)
        match set_msg_hook None g' with
        | Ok g'' => (yielded, Err e, g'')
        | Err e' => (yielded, Err e', g')
        end
      else (yielded, Err e, g')
  end.

(** The hook slot of the engine of the registered controller. *)
Definition hook_slot (g : Globals) : option (option hook) :=
  match _daq_instance g with
  | Some d =>
      match _RE d with
      | Some re => Some (msg_hook re)
      | None => None
      end
  | None => None
  end.

(** ** The module's top level *)

Module TopLevel.

(** A statement of the top level, by what its execution reads from the
    module's namespace and what it binds there.  The body of a [def] is not
    run when the [def] is; the body of a [class] is, and with it the
    decorator [check_connect] on the methods that carry it. *)
Inductive stmt :=
| Import (package : string) (names : list string)
| TryImport (package : string) (names : list string) (handler_reads : list string)
| Assign (target : string) (reads : list string)
| Def (fname : string) (decorators : list string)
| ClassDef (cname : string) (reads : list string)
| ExprStmt (reads : list string).

(** The names a module has before its first statement, and the builtins
    that the top level of [daq.py] uses. *)
Definition initial_names : gset string :=
  list_to_set ["__name__"; "__doc__"; "__file__"; "__builtins__"].

Definition builtins : gset string :=
  list_to_set ["dict"; "property"; "Exception"; "ImportError"].

(** The first name of [reads] that is neither global nor builtin. *)
Fixpoint unbound_name (ns : gset string) (reads : list string) : option string :=
  match reads with
  | [] => None
  | x :: rest =>
      if decide (x ∈ ns ∪ builtins) then unbound_name ns rest else Some x
  end.

(** Whether a name is bound in a namespace. *)
Definition bound (x : string) (ns : gset string) : bool :=
  bool_decide (x ∈ ns).

Definition evaluate (ns : gset string) (reads : list string)
    (bound : list string) : result (gset string) :=
  match unbound_name ns reads with
  | Some x => Err (Exn NameError x)
  | None => Ok (ns ∪ list_to_set bound)
  end.

Section Exec.

(** The packages that can be imported where the module is loaded. *)
Variable installed : string -> bool.

Definition exec_stmt (ns : gset string) (s : stmt) : result (gset string) :=
  match s with
  | Import package names =>
      if installed package
      then Ok (ns ∪ list_to_set names)
      else Err (Exn ImportError package)
  | TryImport package names handler_reads =>
      if installed package
      then Ok (ns ∪ list_to_set names)
      else evaluate ns handler_reads []
  | Assign target reads => evaluate ns reads [target]
  | Def fname decorators => evaluate ns decorators [fname]
  | ClassDef cname reads => evaluate ns reads [cname]
  | ExprStmt reads => evaluate ns reads []
  end.

(** Statements run in order; the first exception ends the import.  The
    result comes with the namespace reached and the statements left. *)
Fixpoint exec (ns : gset string) (body : list stmt)
    : result unit * gset string * list stmt :=
  match body with
  | [] => (Ok tt, ns, [])
  | s :: rest =>
      match exec_stmt ns s with
      | Ok ns' => exec ns' rest
      | Err e => (Err e, ns, body)
      end
  end.

End Exec.

(** The top level of [daq.py], statement by statement. *)
Definition daq_py : list stmt :=
  [ Import "os" ["os"];
    Import "functools" ["functools"];
    Import "threading" ["threading"];
    Import "copy" ["copy"];
    Import "enum" ["enum"];
    Import "logging" ["logging"];
    Import "ophyd.status" ["Status"; "status_wait"];
    Import "ophyd.flyers" ["FlyerInterface"];
    Import "bluesky.plan_stubs" ["kickoff"; "complete"];
    Import "bluesky.preprocessors" ["fly_during_wrapper"];
    Import "bluesky.utils" ["make_decorator"];
    Assign "logger" ["logging"; "__name__"];
    TryImport "pydaq" ["pydaq"] ["logger"];
    Assign "BEGIN_TIMEOUT" [];
    Def "check_connect" [];
    ClassDef "Daq"
      ["FlyerInterface"; "enum"; "dict"; "property"; "check_connect";
       "functools"];
    ExprStmt ["_daq_instance"];
    Def "register_daq" [];
    Def "daq_wrapper" [];
    Assign "daq_decorator" ["make_decorator"; "daq_wrapper"];
    Def "calib_cycle" [] ].

(** The packages the module imports outside a [try]. *)
Definition required_packages : list string :=
  ["os"; "functools"; "threading"; "copy"; "enum"; "logging";
   "ophyd.status"; "ophyd.flyers"; "bluesky.plan_stubs";
   "bluesky.preprocessors"; "bluesky.utils"].

End TopLevel.

(** ** The other methods of [Daq] and [calib_cycle] *)

(** [state == 'Running'] *)
Definition is_Running (s : PydaqState) : bool :=
  match s with Running => true | _ => false end.

(** [state in ('Open', 'Running')] *)
Definition in_Open_Running (s : PydaqState) : bool :=
  match s with Open | Running => true | _ => false end.

Definition with_is_bluesky (b : bool) (d : Daq) : Daq :=
  {| name := name d; _control := _control d; _config := _config d;
     _host := _host d; _plat := _plat d; _is_bluesky := b; _RE := _RE d |}.

Definition set_is_bluesky (b : bool) : M unit :=
  fun w => (Ok tt, with_daq (with_is_bluesky b (daq w)) w).

Section Interactive.

Variable class_attr : string -> option pyval.
Variable endpoint : list call -> call -> result Z.

(** ophyd's [status_wait(status, timeout=...)]: it blocks the caller until
    the status is finished or the timeout has passed, while the threads
    run, and it may raise.  What it does to the world is left open. *)
Variable status_wait : nat -> pyval -> M unit.

(** [wait]: the function that [check_connect] decorates, and the decorated
    method. *)
Definition wait_body (timeout : pyval) : M unit :=
  let! st := state endpoint in
  if is_Running st
  then let! status := _get_end_status in
       status_wait status timeout
  else ret tt.

Definition wait (timeout : pyval) : M unit :=
  check_connect endpoint (wait_body timeout).

(** [begin]; the timeout of the first wait is [BEGIN_TIMEOUT]. *)
Definition begin (events duration use_l3t controls : pyval) (wait_too : bool)
    : M unit :=
  let! begin_status :=
    kickoff class_attr endpoint events duration use_l3t controls in
  status_wait begin_status (VFloat BEGIN_TIMEOUT) >>
  if wait_too then wait VNone else ret tt.

(** [end_run]: [self.stop()] is itself decorated. *)
Definition end_run_body : M unit :=
  stop endpoint >>
  let! self := get_daq in
  on_control endpoint (_control self) control_endrun >>
  ret tt.

Definition end_run : M unit := check_connect endpoint end_run_body.

(** [collect]: a generator that ends the run and yields nothing; it runs
    when it is iterated. *)
Definition collect : M (list pyval) :=
  end_run >> ret [].

(** [describe_collect] *)
Definition describe_collect : gmap string pyval := ∅.

(** [stage] and [unstage] *)
Definition stage (self : Daq) : list Daq := [self].

Definition unstage (self : Daq) : list Daq := [self].

(** [pause] *)
Definition pause : M unit :=
  let! st := state endpoint in
  if is_Running st then stop endpoint else ret tt.

(** [resume] *)
Definition resume : M unit :=
  let! st := state endpoint in
  if is_Open st then begin VNone VNone VNone VNone false else ret tt.

(** [_interpret_message] *)
Definition _interpret_message (msg : Msg) : M unit :=
  let cmds := ["open_run"; "close_run"; "create"; "save"] in
  if negb (existsb (String.eqb (command msg)) cmds)
  then ret tt
  else
    let! self := get_daq in
    let config := read_configuration self in
    (if String.eqb (command msg) "open_run" then set_is_bluesky true
     else if String.eqb (command msg) "close_run" then set_is_bluesky false
     else ret tt) >>
    let! mode := lift (py_getitem config "mode") in
    if eq_mode_on mode
    then
      if String.eqb (command msg) "create"
      then (* If already running, pause first to start a fresh begin *)
        pause >> resume
      else if String.eqb (command msg) "save"
      then
        let! bounded :=
          lift (let? e := py_getitem config "events" in
                let? du := py_getitem config "duration" in
                py_any [e; du]) in
        if bounded then wait VNone else pause
      else ret tt
    else ret tt.

(** The engine hands every message of the plan to the hook, in order; an
    exception of the hook ends the plan. *)
Fixpoint interpret_all (msgs : list Msg) : M unit :=
  match msgs with
  | [] => ret tt
  | msg :: rest => _interpret_message msg >> interpret_all rest
  end.

(** [__del__] *)
Definition __del__ : M unit :=
  let! st := state endpoint in
  (if in_Open_Running st then end_run else ret tt) >>
  disconnect endpoint.

End Interactive.

(** [calib_cycle], run to its end by a consumer that takes every message.
    The generators of [bluesky.plan_stubs] that it delegates to are given
    by the messages they yield for the controller. *)
Definition calib_cycle (kickoff_plan complete_plan : Daq -> list Msg)
    (g : Globals) : list Msg * result unit :=
  match _daq_instance g with
  | None => ([], Err (Exn NameError "name '_daq_instance' is not defined"))
  | Some d =>
      if negb (_is_bluesky d)
      then
        ([], Err (Exn RuntimeError
                    "Daq is not attached to the RunEngine! We need to use a daq_wrapper on our plan to run with the daq!"))
      else
        let config := read_configuration d in
        match (let? e := py_getitem config "events" in
               let? du := py_getitem config "duration" in
               py_any [e; du]) with
        | Err e => ([], Err e)
        | Ok bounded =>
            if negb bounded
            then
              ([], Err (Exn RuntimeError
                          "Daq is configured to run forever, cannot calib cycle. Please call daq.configure with a nonzero events or duration argument."))
            else ((kickoff_plan d ++ complete_plan d)%list, Ok tt)
        end
  end.

(** The value of a member of [_state_enum]: the members are numbered from 0
    in the order of their names. *)
Definition PydaqState_value (s : PydaqState) : Z :=
  match s with
  | Disconnected => 0
  | Connected => 1
  | Configured => 2
  | Open => 3
  | Running => 4
  end.

(** The flag [_is_bluesky] after a list of messages: the last [open_run] or
    [close_run] decides. *)
Definition flag_after (msgs : list Msg) (flag : bool) : bool :=
  fold_left
    (fun b msg =>
       if String.eqb (command msg) "open_run" then true
       else if String.eqb (command msg) "close_run" then false
       else b)
    msgs flag.

(** A message that [_interpret_message] acts on in mode [on]. *)
Definition is_step (msg : Msg) : bool :=
  String.eqb (command msg) "create" || String.eqb (command msg) "save".

(** ** Notions used in the properties *)

(** The world in which a function decorated with [check_connect] runs: the
    world as it is when the controller is connected, and the world after
    [connect] otherwise. *)
Definition after_check_connect (endpoint : list call -> call -> result Z)
    (w : World) : World :=
  if connected (daq w) then w else snd (connect endpoint w).

(** What [configure] decides, connected, before it calls the endpoint's
    [configure]: the resolved mode and the arguments of the call, or the
    exception that ends it. *)
Definition configure_prelude (class_attr : string -> option pyval)
    (endpoint : list call -> call -> result Z)
    (duration record use_l3t controls mode : pyval) (w : World)
    : result (pyval * gmap string pyval) :=
  let? num := endpoint (calls w) control_state in
  let? st := _state_enum num in
  let? _ :=
    (if negb (in_Connected_Configured st)
     then Err (Exn RuntimeError
                 ("Cannot configure from state " ++ PydaqState_name st ++ "!"))
     else Ok tt) in
  let? _ := _check_duration duration in
  let? mode :=
    (if is_None mode
     then py_getitem (read_configuration (daq w)) "mode"
     else Ok mode) in
  let? mode := resolve_mode class_attr mode in
  let? config_args := _config_args (daq w) record use_l3t controls in
  Ok (mode, config_args).

(** How the arguments of [control.begin] bound the run: by a number of
    events, counted after the L3 trigger or not, or by a duration. *)
Definition event_based (n : pyval) (l3t : bool) (args : gmap string pyval)
    : Prop :=
  args !! (if l3t then "l3t_events" else "events") = Some n
  /\ args !! (if l3t then "events" else "l3t_events") = None
  /\ args !! "duration" = None.

Definition duration_based (secs nsec : Z) (args : gmap string pyval) : Prop :=
  args !! "duration" = Some (VIntList [secs; nsec])
  /\ args !! "events" = None
  /\ args !! "l3t_events" = None.

(** The [use_l3t] that [_begin_args] uses with an event count: the stored
    one when the argument is [None] and a configuration is stored. *)
Definition resolved_l3t (self : Daq) (use_l3t : pyval) : result bool :=
  let? v :=
    (if is_None use_l3t && configured self
     then py_getitem (read_configuration self) "use_l3t"
     else Ok use_l3t) in
  Ok (truthy v).

(** The countdown of the loop of [start_thread] alone: whether [tmo > 0]
    fails within [n] tests when no poll finds the endpoint ready. *)
Fixpoint countdown (n : nat) (tmo : float) : bool :=
  match n with
  | O => false
  | S k =>
      if PrimFloat.ltb 0%float tmo
      then countdown k (PrimFloat.sub tmo dt)
      else true
  end.

(** [w2] is [w] after [k] state queries and nothing else. *)
Definition polled (k : nat) (w w2 : World) : Prop :=
  daq w2 = daq w
  /\ statuses w2 = statuses w
  /\ threads w2 = threads w
  /\ calls w2 = (repeat control_state k ++ calls w)%list.


(** An endpoint that answers every state query, and never with
    [Configured] or [Open]. *)
Definition never_ready (endpoint : list call -> call -> result Z) : Prop :=
  forall h, exists num st,
    endpoint h control_state = Ok num
    /\ _state_enum num = Ok st
    /\ in_Configured_Open st = false.

(** ** Worlds, sessions and sample inputs *)

(** The world in which the stored configuration is the dictionary that a
    successful [configure] stores. *)
Definition with_stored (events duration record use_l3t controls mode : pyval)
    (w : World) : World :=
  with_daq
    (with_config
       (Some (config_dict events duration record use_l3t controls mode))
       (daq w))
    w.

(** The world in which nothing is stored. *)
Definition unconfigured (w : World) : World :=
  with_daq (with_config None (daq w)) w.

(** A session of [connect] and [disconnect] calls at the prompt; a call that
    raises leaves the world as it was when it raised. *)
Inductive session_call := call_connect | call_disconnect.

Definition session_step (endpoint : list call -> call -> result Z)
    (c : session_call) (w : World) : World :=
  match c with
  | call_connect => snd (connect endpoint w)
  | call_disconnect => snd (disconnect endpoint w)
  end.

Definition session (endpoint : list call -> call -> result Z)
    (cs : list session_call) (w : World) : World :=
  fold_left (fun w c => session_step endpoint c w) cs w.

(** Sample inputs. *)
Definition sample_daq : Daq :=
  {| name := "daq"; _control := None; _config := None; _host := "daq-host";
     _plat := 0; _is_bluesky := false;
     _RE := Some {| msg_hook := None |} |}.

Definition fresh_world : World :=
  {| daq := sample_daq; calls := []; statuses := []; threads := [] |}.

Definition connected_world : World :=
  with_daq
    (with_control (Some {| ctl_host := "daq-host"; ctl_platform := 0 |})
       sample_daq)
    fresh_world.

(** A connected controller with a stored configuration of 100 events. *)
Definition configured_world : World :=
  with_stored (VInt 100) VNone (VBool false) (VBool false) VNone (VMode on)
    connected_world.

(** The same controller inside a plan ([open_run] was seen), configured in
    mode [manual]. *)
Definition attached_world : World :=
  with_daq
    {| name := "daq";
       _control := Some {| ctl_host := "daq-host"; ctl_platform := 0 |};
       _config :=
         Some (config_dict (VInt 100) VNone (VBool false) (VBool false) VNone
                 (VMode manual));
       _host := "daq-host"; _plat := 0; _is_bluesky := true;
       _RE := Some {| msg_hook := Some interpret_message_hook |} |}
    fresh_world.

(** The configured controller after [kickoff()]: one pending status, and the
    thread that is to resolve it. *)
Definition kicked_world : World :=
  {| daq := daq configured_world; calls := []; statuses := [None];
     threads :=
       [start_thread_args (_control (daq configured_world)) 0
          VNone VNone VNone VNone] |}.

(** An endpoint on which every call returns and that reports the state
    [num]. *)
Definition answering (num : Z) : list call -> call -> result Z :=
  fun _ c =>
    match c with
    | control_state => Ok num
    | _ => Ok 0
    end.

(** The same endpoint, except that one kind of call raises. *)
Definition failing_on (bad : call -> bool) (e : exn) (num : Z)
    : list call -> call -> result Z :=
  fun h c => if bad c then Err e else answering num h c.


(** Some attributes of an enumeration class, and [int] on runs of digits. *)
Definition sample_class_attr (s : string) : option pyval :=
  if String.eqb s "__doc__" then Some VNone
  else if String.eqb s "__name__" then Some (VStr "ScanMode")
  else if String.eqb s "__members__" then Some (VObj "mappingproxy")
  else if String.eqb s "mro" then Some (VObj "built-in method mro")
  else None.

Fixpoint digits_value (s : string) (acc : Z) : option Z :=
  match s with
  | EmptyString => Some acc
  | String a rest =>
      let n := Z.of_nat (Ascii.nat_of_ascii a) - 48 in
      if (0 <=? n) && (n <=? 9)
      then digits_value rest (10 * acc + n)
      else None
  end.

Definition int_of_digits (s : string) : option Z :=
  match s with
  | EmptyString => None
  | _ => digits_value s 0
  end.

(** * Properties *)

(** ** Lookups in a stored configuration *)

Section ConfigDict.
Variables events duration record use_l3t controls mode : pyval.

Lemma config_dict_events :
  config_dict events duration record use_l3t controls mode !! "events" =
  Some events.
Proof. reflexivity. Qed.

Lemma config_dict_duration :
  config_dict events duration record use_l3t controls mode !! "duration" =
  Some duration.
Proof. reflexivity. Qed.

Lemma config_dict_record :
  config_dict events duration record use_l3t controls mode !! "record" =
  Some record.
Proof. reflexivity. Qed.

Lemma config_dict_use_l3t :
  config_dict events duration record use_l3t controls mode !! "use_l3t" =
  Some use_l3t.
Proof. reflexivity. Qed.

Lemma config_dict_controls :
  config_dict events duration record use_l3t controls mode !! "controls" =
  Some controls.
Proof. reflexivity. Qed.

Lemma config_dict_mode :
  config_dict events duration record use_l3t controls mode !! "mode" =
  Some mode.
Proof. reflexivity. Qed.

(** The dictionary has no key ["control"]. *)
Lemma config_dict_control :
  config_dict events duration record use_l3t controls mode !! "control" = None.
Proof. reflexivity. Qed.

End ConfigDict.

Lemma default_config_is_config_dict :
  default_config =
  config_dict VNone VNone (VBool false) (VBool false) VNone (VMode on).
Proof. reflexivity. Qed.

(** ** [complete] *)

Lemma complete_on_config (endpoint : list call -> call -> result Z)
    (w : World) (e du r l c m : pyval) :
  _config (daq w) = Some (config_dict e du r l c m) ->
  complete endpoint w =
  (Err (Exn TypeError "any() takes exactly one argument"),
   {| daq := daq w; calls := calls w;
      statuses := statuses w ++ [None];
      threads :=
        finish_thread_args (_control (daq w)) (List.length (statuses w))
        :: threads w |}).
Proof.
  intros Hc.
  unfold complete, _get_end_status, read_configuration, bind, new_Status,
    get_daq, Thread_start, ret, lift; simpl.
  rewrite Hc; simpl. unfold py_getitem.
  rewrite config_dict_events, config_dict_duration. reflexivity.
Qed.

Lemma complete_unconfigured (endpoint : list call -> call -> result Z)
    (w : World) :
  _config (daq w) = None ->
  complete endpoint w =
  (Err (Exn TypeError "any() takes exactly one argument"),
   {| daq := daq w; calls := calls w;
      statuses := statuses w ++ [None];
      threads :=
        finish_thread_args (_control (daq w)) (List.length (statuses w))
        :: threads w |}).
Proof.
  intros Hc.
  unfold complete, _get_end_status, read_configuration, bind, new_Status,
    get_daq, Thread_start, ret, lift; simpl.
  rewrite Hc; simpl. reflexivity.
Qed.

(** C1.  In the code, [complete] never issues a stop and never returns its
    handle: whatever is stored (a configuration as [configure] stores it,
    here with any values, or nothing), the two-argument call to [any] raises
    [TypeError] after the end thread was started, and the endpoint has not
    been called.  This holds in particular for the run-forever
    configuration, where the claim expects a stop and a handle. *)
Theorem complete_raises_TypeError
    (endpoint : list call -> call -> result Z) (w : World)
    (e du r l c m : pyval) :
  let configured_run := complete endpoint (with_stored e du r l c m w) in
  let unconfigured_run := complete endpoint (unconfigured w) in
  raises TypeError (fst configured_run)
  /\ calls (snd configured_run) = calls w
  /\ raises TypeError (fst unconfigured_run)
  /\ calls (snd unconfigured_run) = calls w.
Proof.
  cbv zeta.
  rewrite (complete_on_config endpoint (with_stored e du r l c m w) e du r l c m)
    by reflexivity.
  rewrite (complete_unconfigured endpoint (unconfigured w)) by reflexivity.
  simpl. auto.
Qed.

(** ** [describe_configuration] *)

(** C10.  In the code, [describe_configuration] returns no mapping: it reads
    the key ['control'], which no stored configuration and not the default
    one has, and the [KeyError] is not among the exceptions it handles. *)
Theorem describe_configuration_raises_KeyError (self : Daq)
    (e du r l c m : pyval) :
  raises KeyError
    (describe_configuration
       (with_config (Some (config_dict e du r l c m)) self))
  /\ raises KeyError (describe_configuration (with_config None self)).
Proof.
  split; reflexivity.
Qed.

(** ** [daq_wrapper] *)

Lemma daq_wrapper_yields_nothing (plan : list Msg) (g : Globals) :
  fst (fst (daq_wrapper plan g)) = [].
Proof.
  unfold daq_wrapper, set_msg_hook.
  destruct (_daq_instance g) as [d|] eqn:Hg; simpl; rewrite ?Hg;
    [|reflexivity].
  destruct (_RE d) eqn:Hre; simpl; rewrite ?Hg, ?Hre; reflexivity.
Qed.

Lemma daq_wrapper_never_returns (plan : list Msg) (g : Globals) :
  is_Ok (snd (fst (daq_wrapper plan g))) = false.
Proof.
  unfold daq_wrapper, set_msg_hook.
  destruct (_daq_instance g) as [d|] eqn:Hg; simpl; rewrite ?Hg;
    [|reflexivity].
  destruct (_RE d) eqn:Hre; simpl; rewrite ?Hg, ?Hre; reflexivity.
Qed.

(** C9.  In the code, [daq_wrapper(plan)] does not run the plan: [plan] is
    not used, and [yield from] is handed a [functools.partial] object, which
    is not iterable.  Whatever the plan and the globals, no message is
    yielded and the generator ends with an exception; with a controller
    registered and attached to an engine, the exception is the [TypeError]
    of [yield from] and the handler leaves the hook slot empty. *)
Theorem daq_wrapper_never_runs_plan (plan : list Msg) (g : Globals)
    (d : Daq) (re : RunEngine) :
  let registered := register_daq (with_RE (Some re) d) g in
  fst (fst (daq_wrapper plan g)) = []
  /\ is_Ok (snd (fst (daq_wrapper plan g))) = false
  /\ raises TypeError (snd (fst (daq_wrapper plan registered)))
  /\ hook_slot (snd (daq_wrapper plan registered)) = Some None.
Proof.
  cbv zeta. split; [apply daq_wrapper_yields_nothing|].
  split; [apply daq_wrapper_never_returns|].
  split; reflexivity.
Qed.

(** ** The top level of the module *)

Import TopLevel.

Lemma required_installed (installed : string -> bool) :
  (forall p, In p required_packages -> installed p = true) ->
  forall p, existsb (String.eqb p) required_packages = true ->
            installed p = true.
Proof.
  intros H p Hp. apply H.
  apply existsb_exists in Hp. destruct Hp as [x [Hx He]].
  apply String.eqb_eq in He. subst x. exact Hx.
Qed.

(** C3.  Where the packages that the module imports are installed (with or
    without pydaq), running the top level of [daq.py] raises [NameError] at
    the bare expression [_daq_instance]: the class [Daq] is bound by then,
    and [register_daq], [daq_wrapper], [daq_decorator] and [calib_cycle],
    which come after it, are left unexecuted and their names unbound. *)
Theorem import_raises_NameError (installed : string -> bool) :
  (forall p, In p required_packages -> installed p = true) ->
  let '(r, ns, rest) := exec installed initial_names daq_py in
  r = Err (Exn NameError "_daq_instance")
  /\ rest =
     [ ExprStmt ["_daq_instance"];
       Def "register_daq" [];
       Def "daq_wrapper" [];
       Assign "daq_decorator" ["make_decorator"; "daq_wrapper"];
       Def "calib_cycle" [] ]
  /\ bound "Daq" ns = true
  /\ bound "_daq_instance" ns = false
  /\ bound "register_daq" ns = false
  /\ bound "daq_wrapper" ns = false
  /\ bound "calib_cycle" ns = false.
Proof.
  intros H. pose proof (required_installed installed H) as H1.
  unfold daq_py. cbn [exec exec_stmt].
  rewrite !H1 by reflexivity.
  destruct (installed "pydaq"); vm_compute; repeat split; reflexivity.
Qed.

Lemma import_raises_NameError_witness :
  (forall p : string, In p required_packages -> (fun _ : string => true) p = true)
  /\ fst (fst (exec (fun _ => true) initial_names daq_py)) =
     Err (Exn NameError "_daq_instance").
Proof.
  split; [intros p _; reflexivity|].
  pose proof (import_raises_NameError (fun _ => true) (fun p _ => eq_refl)) as H.
  destruct (exec (fun _ => true) initial_names daq_py) as [[r ns] rest].
  apply H.
Defined.

(** Without any assumption on what is installed, the import never succeeds:
    it ends in an [ImportError] or in the [NameError] above. *)
Lemma import_never_succeeds (installed : string -> bool) :
  is_Ok (fst (fst (exec installed initial_names daq_py))) = false.
Proof.
  unfold daq_py. cbn [exec exec_stmt].
  do 11 (match goal with
         | |- context [match (if installed ?p then _ else _) with _ => _ end] =>
             destruct (installed p); [|reflexivity]
         end).
  destruct (installed "pydaq"); vm_compute; reflexivity.
Qed.

(** ** [connect], [disconnect] and [check_connect] *)

Section Connection.
Variable endpoint : list call -> call -> result Z.

Lemma connect_run (w : World) :
  _control (daq w) = None ->
  let c0 := pydaq_Control (_host (daq w)) (_plat (daq w)) in
  let ctl := {| ctl_host := _host (daq w); ctl_platform := _plat (daq w) |} in
  connect endpoint w =
  (Ok tt,
   match endpoint (calls w) c0 with
   | Err _ => with_daq (with_control None (daq w)) (record_call c0 w)
   | Ok _ =>
       match endpoint (c0 :: calls w) control_connect with
       | Err _ =>
           with_daq (with_control None (daq w))
             (record_call control_connect (record_call c0 w))
       | Ok _ =>
           with_daq (with_control (Some ctl) (daq w))
             (record_call control_connect (record_call c0 w))
       end
   end).
Proof.
  intros Hc. cbv zeta. unfold connect, bind at 1, get_daq at 1. rewrite Hc.
  unfold try_except, bind, rpc, set_control, ret; simpl.
  destruct (endpoint (calls w) _); simpl; [|destruct (daq w); reflexivity].
  destruct (endpoint (_ :: calls w) control_connect); simpl;
    destruct (daq w); reflexivity.
Qed.

(** [connect] handles every exception of the endpoint. *)
Lemma connect_returns (w : World) : fst (connect endpoint w) = Ok tt.
Proof.
  destruct (_control (daq w)) eqn:Hc.
  - unfold connect, bind, get_daq. rewrite Hc. reflexivity.
  - rewrite connect_run by exact Hc. reflexivity.
Qed.

Lemma check_connect_run {A} (f : M A) (w : World) :
  check_connect endpoint f w =
  let w0 := after_check_connect endpoint w in
  if connected (daq w0)
  then f w0
  else (Err (Exn RuntimeError "Could not connect to DAQ"), w0).
Proof.
  unfold check_connect, after_check_connect, bind at 1, get_daq at 1.
  destruct (connected (daq w)) eqn:Hc; simpl.
  - unfold bind, ret, get_daq. rewrite Hc. reflexivity.
  - unfold bind at 1. pose proof (connect_returns w) as Hr.
    destruct (connect endpoint w) as [r w0]. simpl in Hr. subst r. simpl.
    unfold bind, get_daq. destruct (connected (daq w0)); reflexivity.
Qed.

(** What [check_connect] leaves as it was, and which calls it adds. *)
Lemma after_check_connect_frame (w : World) :
  let w0 := after_check_connect endpoint w in
  _config (daq w0) = _config (daq w)
  /\ _is_bluesky (daq w0) = _is_bluesky (daq w)
  /\ statuses w0 = statuses w
  /\ threads w0 = threads w
  /\ (w0 = w /\ connected (daq w) = true
      \/ connected (daq w) = false
         /\ exists c h,
             calls w0 = c :: h
             /\ (c = control_connect
                 \/ exists host plat, c = pydaq_Control host plat)
             /\ List.filter is_control_configure (calls w0) =
                List.filter is_control_configure (calls w)).
Proof.
  unfold after_check_connect, connected.
  destruct (_control (daq w)) eqn:Hc; cbv zeta.
  - repeat split; auto.
  - rewrite connect_run by exact Hc. cbn [snd].
    destruct (endpoint (calls w) _);
      [destruct (endpoint (_ :: calls w) control_connect)|];
      (repeat split; try reflexivity; right; split; [reflexivity|]);
      eexists _, _; (split; [reflexivity|]); split; eauto.
Qed.

Lemma disconnect_run (w : World) :
  disconnect endpoint w =
  let cleared := with_config None (with_control None (daq w)) in
  match _control (daq w) with
  | Some _ =>
      match endpoint (calls w) control_disconnect with
      | Ok _ => (Ok tt, with_daq cleared (record_call control_disconnect w))
      | Err e => (Err e, record_call control_disconnect w)
      end
  | None => (Ok tt, with_daq cleared w)
  end.
Proof.
  unfold disconnect, bind at 1, get_daq at 1.
  destruct (_control (daq w)); [|reflexivity].
  unfold bind, rpc. destruct (endpoint (calls w) control_disconnect); reflexivity.
Qed.

(** C7, as the code has it.  When [disconnect()] returns, which it does
    when the endpoint's own disconnect call returns or when there is no
    connection, the handle and the stored configuration are cleared, and the
    state read immediately afterwards is [Disconnected] without a call to
    the endpoint; this holds after every session of [connect] and
    [disconnect] calls. *)
Theorem disconnect_then_Disconnected (cs : list session_call) (w w' : World) :
  disconnect endpoint (session endpoint cs w) = (Ok tt, w') ->
  _control (daq w') = None
  /\ _config (daq w') = None
  /\ state endpoint w' = (Ok Disconnected, w').
Proof.
  generalize (session endpoint cs w). intros w0 H.
  rewrite disconnect_run in H. cbv zeta in H.
  assert (Hc : _control (daq w') = None /\ _config (daq w') = None).
  { destruct (_control (daq w0)).
    - destruct (endpoint (calls w0) control_disconnect); [|discriminate H].
      injection H as <-. split; reflexivity.
    - injection H as <-. split; reflexivity. }
  destruct Hc as [Hc1 Hc2]. repeat split; try assumption.
  unfold state, bind, get_daq, connected. rewrite Hc1. reflexivity.
Qed.

End Connection.

Lemma disconnect_then_Disconnected_witness :
  let ep := answering 1 in
  let w0 := session ep [call_connect; call_disconnect; call_connect] fresh_world in
  let w' := snd (disconnect ep w0) in
  disconnect ep w0 = (Ok tt, w')
  /\ connected (daq w0) = true
  /\ state ep w' = (Ok Disconnected, w').
Proof.
  cbv zeta. split; [vm_compute; reflexivity|]. split; [vm_compute; reflexivity|].
  apply (disconnect_then_Disconnected (answering 1)
           [call_connect; call_disconnect; call_connect] fresh_world).
  vm_compute; reflexivity.
Defined.

(** C7, counterexample.  When the endpoint's disconnect call raises,
    [disconnect()] raises with it: the assignments that clear the handle and
    the configuration are not reached, and the state read afterwards is the
    endpoint's, not [Disconnected]. *)
Lemma disconnect_failure_keeps_handle :
  let ep :=
    failing_on is_control_disconnect (Exn RuntimeError "disconnect failed") 2 in
  let run := disconnect ep configured_world in
  raises RuntimeError (fst run)
  /\ connected (daq (snd run)) = true
  /\ configured (daq (snd run)) = true
  /\ fst (state ep (snd run)) = Ok Configured.
Proof.
  vm_compute. repeat split; reflexivity.
Qed.

(** ** [configure] *)

Section Configure.
Variable class_attr : string -> option pyval.
Variable endpoint : list call -> call -> result Z.

(** The run of [configure] on a connected controller: the state is queried;
    when the decisions before the endpoint's [configure] fail, the exception
    propagates; otherwise the endpoint is called, and its answer decides
    between storing the requested configuration and storing none. *)
Lemma configure_body_run (e du r l c m : pyval) (w : World) (ctl : Control) :
  _control (daq w) = Some ctl ->
  configure_body class_attr endpoint e du r l c m w =
  let w1 := record_call control_state w in
  let old := read_configuration (daq w) in
  match configure_prelude class_attr endpoint du r l c m w with
  | Err err => (Err err, w1)
  | Ok (mode, config_args) =>
      let w2 := record_call (control_configure config_args) w1 in
      match endpoint (calls w1) (control_configure config_args) with
      | Ok _ =>
          (Ok (old, config_dict e du r l c mode),
           with_daq
             (with_config (Some (config_dict e du r l c mode)) (daq w)) w2)
      | Err _ =>
          (Ok (old, default_config), with_daq (with_config None (daq w)) w2)
      end
  end.
Proof.
  intros Hc. cbv zeta.
  unfold configure_body, configure_prelude.
  unfold bind at 1. unfold state at 1.
  unfold bind at 1, get_daq at 1, connected.
  rewrite Hc. unfold on_control at 1, bind at 1, rpc at 1.
  destruct (endpoint (calls w) control_state) as [num|err]; [|reflexivity].
  unfold lift at 1. cbn [rbind].
  destruct (_state_enum num) as [st|err]; [|reflexivity].
  unfold bind at 1. cbn [rbind].
  destruct (negb (in_Connected_Configured st)); [reflexivity|].
  unfold ret at 1, bind at 1, lift at 1. cbn [rbind].
  destruct (_check_duration du); [|reflexivity].
  unfold bind at 1, get_daq at 1. cbn [daq record_call rbind].
  unfold bind at 1, lift at 1.
  destruct (if is_None m then _ else _) as [m1|err]; [|reflexivity].
  unfold bind at 1, lift at 1. cbn [rbind].
  destruct (resolve_mode class_attr m1) as [m2|err]; [|reflexivity].
  unfold bind at 1, lift at 1. cbn [rbind].
  destruct (_config_args (daq w) r l c) as [cargs|err]; [|reflexivity].
  unfold bind at 1, try_except. rewrite Hc.
  unfold on_control, bind at 1, rpc. cbn [calls record_call rbind].
  destruct (endpoint (control_state :: calls w) (control_configure cargs));
    reflexivity.
Qed.

(** When the decisions before the endpoint's [configure] fail, [configure]
    raises, the endpoint's [configure] is not called, and the stored
    configuration, the statuses and the threads are as they were. *)
Lemma configure_stops_in_prelude (e du r l c m : pyval) (w : World) :
  is_Ok (configure_prelude class_attr endpoint du r l c m
           (after_check_connect endpoint w)) = false ->
  let run := configure class_attr endpoint e du r l c m w in
  is_Ok (fst run) = false
  /\ List.filter is_control_configure (calls (snd run)) =
     List.filter is_control_configure (calls w)
  /\ _config (daq (snd run)) = _config (daq w)
  /\ statuses (snd run) = statuses w
  /\ threads (snd run) = threads w.
Proof.
  intros Hp. cbv zeta. unfold configure. rewrite check_connect_run. cbv zeta.
  pose proof (after_check_connect_frame endpoint w) as Hf. cbv zeta in Hf.
  destruct Hf as (Hcfg & _ & Hst & Hth & Hcase).
  set (w0 := after_check_connect endpoint w) in *.
  assert (Hfilter : List.filter is_control_configure (calls w0) =
                    List.filter is_control_configure (calls w)).
  { destruct Hcase as [[-> _]|[_ (? & ? & _ & _ & Hfl)]];
      [reflexivity|exact Hfl]. }
  destruct (connected (daq w0)) eqn:Hconn.
  - unfold connected in Hconn.
    destruct (_control (daq w0)) as [ctl|] eqn:Hctl; [|discriminate].
    rewrite (configure_body_run e du r l c m w0 ctl Hctl). cbv zeta.
    destruct (configure_prelude _ _ _ _ _ _ _ _) as [[m2 cargs]|perr];
      [discriminate Hp|].
    simpl. auto.
  - simpl. auto.
Qed.

(** *** The endpoint's [configure] raises *)

(** C4.  If the last call that [configure] made to the endpoint is its
    [configure] call and that call raised, then the stored configuration is
    [None] whatever it was before, [read_configuration()] afterwards is the
    default configuration, and [configure] returned its pair with the
    default configuration as the new one. *)
Theorem configure_failure_unconfigures (e du r l c m : pyval) (w : World)
    (res : result (gmap string pyval * gmap string pyval)) (w' : World) :
  configure class_attr endpoint e du r l c m w = (res, w') ->
  (exists config_args h err,
      calls w' = control_configure config_args :: h
      /\ endpoint h (control_configure config_args) = Err err) ->
  _config (daq w') = None
  /\ read_configuration (daq w') = default_config
  /\ exists old, res = Ok (old, default_config).
Proof.
  intros Hrun (cargs & h & err & Hcalls & Hraise).
  unfold configure in Hrun. rewrite check_connect_run in Hrun.
  cbv zeta in Hrun.
  pose proof (after_check_connect_frame endpoint w) as Hf. cbv zeta in Hf.
  destruct Hf as (_ & _ & _ & _ & Hcase).
  set (w0 := after_check_connect endpoint w) in *.
  destruct (connected (daq w0)) eqn:Hconn.
  - unfold connected in Hconn.
    destruct (_control (daq w0)) as [ctl|] eqn:Hctl; [|discriminate].
    rewrite (configure_body_run e du r l c m w0 ctl Hctl) in Hrun.
    cbv zeta in Hrun.
    destruct (configure_prelude _ _ _ _ _ _ _ _) as [[m2 cargs']|perr].
    + destruct (endpoint _ (control_configure cargs')) eqn:He;
        injection Hrun as <- <-; simpl in Hcalls.
      * injection Hcalls as -> <-. simpl in He. congruence.
      * repeat split; eauto.
    + injection Hrun as <- <-. simpl in Hcalls. discriminate.
  - injection Hrun as <- <-.
    destruct Hcase as [[_ Hc]|[_ (c0 & h0 & Hc0 & Hkind & _)]].
    + subst w0. unfold after_check_connect in Hconn. rewrite Hc in Hconn.
      congruence.
    + rewrite Hc0 in Hcalls. injection Hcalls as -> _.
      destruct Hkind as [?|(? & ? & ?)]; discriminate.
Qed.

(** *** The duration *)

Lemma check_duration_short (du : pyval) :
  py_lt_1 du = Ok true ->
  _check_duration du = Err (Exn RuntimeError unreliable_duration).
Proof.
  intros H. unfold _check_duration.
  destruct du; try discriminate H;
    cbn [is_None negb]; rewrite H; reflexivity.
Qed.

Lemma configure_prelude_short (du r l c m : pyval) (w : World) :
  py_lt_1 du = Ok true ->
  is_Ok (configure_prelude class_attr endpoint du r l c m w) = false.
Proof.
  intros H. unfold configure_prelude.
  destruct (endpoint (calls w) control_state) as [num|]; [|reflexivity].
  cbn [rbind]. destruct (_state_enum num) as [st|]; [|reflexivity].
  cbn [rbind]. destruct (negb (in_Connected_Configured st)); [reflexivity|].
  cbn [rbind]. rewrite (check_duration_short du H). reflexivity.
Qed.

(** C8, as the code has it.  For every duration less than 1, [configure]
    raises, never calls the endpoint's [configure], and leaves the stored
    configuration, the statuses and the threads as they were.  The endpoint
    is called before the duration is checked: to connect when the controller
    is not connected, and for its state.  On a connected controller whose
    state is [Connected] or [Configured], the exception is the one of
    [_check_duration] and the state query is the only call; from there
    [configure(duration=2, mode='on')] goes on to the endpoint's
    [configure]. *)
Theorem short_duration_rejected (e du r l c m : pyval) (w : World) :
  py_lt_1 du = Ok true ->
  let run := configure class_attr endpoint e du r l c m w in
  is_Ok (fst run) = false
  /\ List.filter is_control_configure (calls (snd run)) =
     List.filter is_control_configure (calls w)
  /\ _config (daq (snd run)) = _config (daq w)
  /\ statuses (snd run) = statuses w
  /\ threads (snd run) = threads w
  /\ (forall ctl num st,
        _control (daq w) = Some ctl ->
        endpoint (calls w) control_state = Ok num ->
        _state_enum num = Ok st ->
        in_Connected_Configured st = true ->
        run =
        (Err (Exn RuntimeError unreliable_duration),
         record_call control_state w)
        /\ forall events record use_l3t,
            exists config_args,
              calls (snd (configure class_attr endpoint events (VInt 2)
                            (VBool record) use_l3t VNone (VStr "on") w)) =
              control_configure config_args :: control_state :: calls w).
Proof.
  intros Hlt. cbv zeta.
  pose proof (configure_stops_in_prelude e du r l c m w
                (configure_prelude_short du r l c m _ Hlt)) as H.
  cbv zeta in H. destruct H as (H1 & H2 & H3 & H4 & H5).
  repeat (split; [assumption|]).
  intros ctl num st Hctl Hnum Hst Hin.
  assert (Hconn : connected (daq w) = true)
    by (unfold connected; rewrite Hctl; reflexivity).
  assert (Hw0 : after_check_connect endpoint w = w)
    by (unfold after_check_connect; rewrite Hconn; reflexivity).
  split.
  - unfold configure. rewrite check_connect_run. cbv zeta. rewrite Hw0, Hconn.
    rewrite (configure_body_run e du r l c m w ctl Hctl). cbv zeta.
    unfold configure_prelude. rewrite Hnum. cbn [rbind].
    rewrite Hst. cbn [rbind]. rewrite Hin. cbn [negb rbind].
    rewrite (check_duration_short du Hlt). reflexivity.
  - intros events record use_l3t.
    unfold configure. rewrite check_connect_run. cbv zeta. rewrite Hw0, Hconn.
    rewrite (configure_body_run _ _ _ _ _ _ w ctl Hctl). cbv zeta.
    unfold configure_prelude. rewrite Hnum. cbn [rbind].
    rewrite Hst. cbn [rbind]. rewrite Hin. cbn [negb rbind].
    change (_check_duration (VInt 2)) with (Ok tt : result unit).
    cbn [rbind is_None].
    change (resolve_mode class_attr (VStr "on"))
      with (Ok (VMode on) : result pyval).
    cbn [rbind]. unfold _config_args. cbn [is_None negb rbind].
    eexists. destruct (endpoint _ (control_configure _)); reflexivity.
Qed.

(** *** The mode *)

(** A symbolic name resolves to its member. *)
Lemma resolve_mode_name (s : string) (sm : ScanMode) :
  ScanMode_of_name s = Some sm ->
  resolve_mode class_attr (VStr s) = Ok (VMode sm).
Proof.
  intros H. unfold resolve_mode, getattr_mode_enum. rewrite H. reflexivity.
Qed.

(** A string that names neither a member nor another attribute of the class
    is reported as an invalid mode. *)
Lemma resolve_mode_unknown_name (s : string) :
  ScanMode_of_name s = None ->
  class_attr s = None ->
  resolve_mode class_attr (VStr s) =
  Err (Exn ValueError "is not a valid scan mode!").
Proof.
  intros H1 H2. unfold resolve_mode, getattr_mode_enum. rewrite H1, H2.
  reflexivity.
Qed.

(** A string that names another attribute of the class resolves to that
    attribute, which is not a mode. *)
Lemma resolve_mode_other_attribute (s : string) (v : pyval) :
  ScanMode_of_name s = None ->
  class_attr s = Some v ->
  resolve_mode class_attr (VStr s) = Ok v.
Proof.
  intros H1 H2. unfold resolve_mode, getattr_mode_enum. rewrite H1, H2.
  reflexivity.
Qed.

(** What is not a string never reaches the lookup by value: [getattr]
    raises [TypeError], which the [except AttributeError] clause does not
    handle. *)
Lemma resolve_mode_value (m : pyval) :
  (forall s, m <> VStr s) ->
  resolve_mode class_attr m =
  Err (Exn TypeError "attribute name must be string").
Proof.
  intros H. destruct m; try reflexivity. exfalso. eapply H. reflexivity.
Qed.

Lemma configure_prelude_mode (du r l c m m1 : pyval) (w : World) :
  (if is_None m then py_getitem (read_configuration (daq w)) "mode" else Ok m)
  = Ok m1 ->
  (forall s, m1 <> VStr s) ->
  is_Ok (configure_prelude class_attr endpoint du r l c m w) = false.
Proof.
  intros Hm Hs. unfold configure_prelude.
  destruct (endpoint (calls w) control_state) as [num|]; [|reflexivity].
  cbn [rbind]. destruct (_state_enum num) as [st|]; [|reflexivity].
  cbn [rbind]. destruct (negb (in_Connected_Configured st)); [reflexivity|].
  cbn [rbind]. destruct (_check_duration du); [|reflexivity].
  cbn [rbind]. rewrite Hm. cbn [rbind].
  rewrite (resolve_mode_value m1 Hs). reflexivity.
Qed.

(** C2.  In the code, [configure] resolves a symbolic name, but never a mode
    value: with an int or a member as [mode], and with [mode] omitted (the
    default is then the member of the previous or of the default
    configuration), it never returns, whatever the other arguments and the
    world.  On a connected controller in state [Connected], [mode=1] ends
    in the [TypeError] of [getattr], not in the member [manual]. *)
Theorem configure_rejects_mode_values (e du r l c : pyval) (w : World)
    (z : Z) (sm : ScanMode) (e0 du0 r0 l0 c0 : pyval) :
  is_Ok (fst (configure class_attr endpoint e du r l c (VInt z) w)) = false
  /\ is_Ok (fst (configure class_attr endpoint e du r l c (VMode sm) w)) = false
  /\ is_Ok (fst (configure class_attr endpoint e du r l c VNone
                   (with_stored e0 du0 r0 l0 c0 (VMode sm) w))) = false
  /\ is_Ok (fst (configure class_attr endpoint e du r l c VNone
                   (unconfigured w))) = false
  /\ raises TypeError
       (fst (configure class_attr (answering 1) (VInt 120) VNone (VBool true)
               (VBool false) VNone (VInt 1) connected_world)).
Proof.
  split; [|split; [|split; [|split]]].
  - apply configure_stops_in_prelude.
    apply (configure_prelude_mode _ _ _ _ _ (VInt z));
      [reflexivity|discriminate].
  - apply configure_stops_in_prelude.
    apply (configure_prelude_mode _ _ _ _ _ (VMode sm));
      [reflexivity|discriminate].
  - apply configure_stops_in_prelude.
    apply (configure_prelude_mode _ _ _ _ _ (VMode sm)); [|discriminate].
    cbn [is_None]. unfold read_configuration.
    destruct (after_check_connect_frame endpoint
                (with_stored e0 du0 r0 l0 c0 (VMode sm) w)) as (-> & _).
    reflexivity.
  - apply configure_stops_in_prelude.
    apply (configure_prelude_mode _ _ _ _ _ (VMode on)); [|discriminate].
    cbn [is_None]. unfold read_configuration.
    destruct (after_check_connect_frame endpoint (unconfigured w)) as (-> & _).
    reflexivity.
  - reflexivity.
Qed.

End Configure.

Lemma configure_failure_unconfigures_witness :
  let ep :=
    failing_on is_control_configure (Exn RuntimeError "configure failed") 1 in
  let run :=
    configure sample_class_attr ep (VInt 120) VNone (VBool true) (VBool false)
      VNone (VStr "manual") configured_world in
  (exists config_args h err,
      calls (snd run) = control_configure config_args :: h
      /\ ep h (control_configure config_args) = Err err)
  /\ configured (daq configured_world) = true
  /\ _config (daq (snd run)) = None
  /\ read_configuration (daq (snd run)) = default_config.
Proof.
  cbv zeta.
  assert (H : exists config_args h err,
             calls (snd (configure sample_class_attr
                           (failing_on is_control_configure
                              (Exn RuntimeError "configure failed") 1)
                           (VInt 120) VNone (VBool true) (VBool false)
                           VNone (VStr "manual") configured_world)) =
             control_configure config_args :: h
             /\ failing_on is_control_configure
                  (Exn RuntimeError "configure failed") 1 h
                  (control_configure config_args) = Err err).
  { eexists _, _, _. split; [vm_compute; reflexivity | reflexivity]. }
  split; [exact H|]. split; [reflexivity|].
  destruct (configure_failure_unconfigures _ _ _ _ _ _ _ _ _ _ _
              (surjective_pairing _) H) as (H1 & H2 & _).
  split; assumption.
Defined.

Lemma short_duration_rejected_witness :
  let run :=
    configure sample_class_attr (answering 1) (VInt 120) (VFloat 0.5)
      (VBool false) (VBool false) VNone (VStr "on") connected_world in
  py_lt_1 (VFloat 0.5) = Ok true
  /\ run =
     (Err (Exn RuntimeError unreliable_duration),
      record_call control_state connected_world)
  /\ exists config_args,
      calls (snd (configure sample_class_attr (answering 1) (VInt 120)
                    (VInt 2) (VBool false) (VBool false) VNone (VStr "on")
                    connected_world)) =
      [control_configure config_args; control_state].
Proof.
  cbv zeta. split; [reflexivity|].
  destruct (short_duration_rejected sample_class_attr (answering 1)
              (VInt 120) (VFloat 0.5) (VBool false) (VBool false) VNone
              (VStr "on") connected_world eq_refl)
    as (_ & _ & _ & _ & _ & H).
  destruct (H {| ctl_host := "daq-host"; ctl_platform := 0 |} 1 Connected
              eq_refl eq_refl eq_refl eq_refl) as [H1 H2].
  split; [exact H1|]. apply (H2 (VInt 120) false (VBool false)).
Defined.

(** C8, counterexample.  With [duration=0.5] on a connected controller, the
    endpoint has been asked for its state when [configure] raises; and when
    the state is [Running], the exception is the one about the state, not
    the one about the duration. *)
Lemma short_duration_after_state_query :
  let checked :=
    configure sample_class_attr (answering 1) (VInt 120) (VFloat 0.5)
      (VBool false) (VBool false) VNone (VStr "on") connected_world in
  let running :=
    configure sample_class_attr (answering 4) (VInt 120) (VFloat 0.5)
      (VBool false) (VBool false) VNone (VStr "on") connected_world in
  py_lt_1 (VFloat 0.5) = Ok true
  /\ calls connected_world = []
  /\ fst checked = Err (Exn RuntimeError unreliable_duration)
  /\ calls (snd checked) = [control_state]
  /\ fst running = Err (Exn RuntimeError "Cannot configure from state Running!")
  /\ calls (snd running) = [control_state].
Proof.
  vm_compute. repeat split; reflexivity.
Qed.

(** ** [_begin_args] *)

Section BeginArgs.
Variable int_of_str : string -> option Z.
Variable endpoint : list call -> call -> result Z.

(** The last step of [_begin_args] adds at most the key ['controls']. *)
Lemma controls_step (controls : pyval) (config base args : gmap string pyval)
    (k : string) :
  k <> "controls" ->
  (if is_None controls
   then
     let? ctrl_dict := py_getitem config "controls" in
     if negb (is_None ctrl_dict)
     then let? c := _ctrl_arg ctrl_dict in Ok (<["controls" := c]> base)
     else Ok base
   else
     let? c := _ctrl_arg controls in Ok (<["controls" := c]> base)) = Ok args ->
  args !! k = base !! k.
Proof.
  intros Hk H.
  destruct (is_None controls).
  - destruct (py_getitem config "controls") as [cd|]; [|discriminate H].
    cbn [rbind] in H. destruct (negb (is_None cd)).
    + destruct (_ctrl_arg cd); [|discriminate H]. cbn [rbind] in H.
      injection H as <-. apply lookup_insert_ne. congruence.
    + injection H as <-. reflexivity.
  - destruct (_ctrl_arg controls); [|discriminate H]. cbn [rbind] in H.
    injection H as <-. apply lookup_insert_ne. congruence.
Qed.

(** The choice between events, duration and running until stopped, for the
    events and the duration that are left once the stored ones were taken
    for missing arguments. *)
Lemma target_step (self : Daq) (events duration use_l3t : pyval)
    (base : gmap string pyval) :
  (if negb (is_None events)
   then
     let? use_l3t :=
       (if is_None use_l3t && configured self
        then py_getitem (read_configuration self) "use_l3t"
        else Ok use_l3t) in
     if truthy use_l3t
     then Ok (<["l3t_events" := events]> (∅ : gmap string pyval))
     else Ok (<["events" := events]> ∅)
   else if negb (is_None duration)
   then
     let? secs := py_int int_of_str duration in
     let? frac := py_sub_int duration secs in
     let? scaled := py_mul_float frac 1e9%float in
     let? nsec := py_int int_of_str scaled in
     Ok (<["duration" := VIntList [secs; nsec]]> ∅)
   else Ok (<["events" := VInt 0]> ∅)) = Ok base ->
  (is_None events = false ->
   exists b, resolved_l3t self use_l3t = Ok b /\ event_based events b base)
  /\ (is_None events = true -> is_None duration = false ->
      exists secs nsec,
        py_int int_of_str duration = Ok secs /\ duration_based secs nsec base)
  /\ (is_None events = true -> is_None duration = true ->
      event_based (VInt 0) false base).
Proof.
  intros H. unfold resolved_l3t.
  destruct (is_None events); cbn [negb] in H.
  - split; [discriminate|].
    destruct (is_None duration); cbn [negb] in H.
    + split; [discriminate|]. intros _ _. injection H as <-.
      repeat split; reflexivity.
    + split; [|discriminate]. intros _ _.
      destruct (py_int int_of_str duration) as [secs|]; [|discriminate H].
      cbn [rbind] in H.
      destruct (py_sub_int duration secs) as [frac|]; [|discriminate H].
      cbn [rbind] in H.
      destruct (py_mul_float frac _) as [scaled|]; [|discriminate H].
      cbn [rbind] in H.
      destruct (py_int int_of_str scaled) as [nsec|]; [|discriminate H].
      cbn [rbind] in H. injection H as <-.
      exists secs, nsec. repeat split; reflexivity.
  - split; [|split; discriminate]. intros _.
    destruct (if is_None use_l3t && configured self then _ else _) as [v|];
      [|discriminate H].
    cbn [rbind] in H |- *. exists (truthy v). split; [reflexivity|].
    destruct (truthy v); injection H as <-; repeat split; reflexivity.
Qed.

Lemma event_based_controls (n : pyval) (b : bool)
    (base args : gmap string pyval) :
  (forall k, k <> "controls" -> args !! k = base !! k) ->
  event_based n b base -> event_based n b args.
Proof.
  intros Hk (H1 & H2 & H3). unfold event_based.
  rewrite !Hk by (destruct b; discriminate). auto.
Qed.

Lemma duration_based_controls (secs nsec : Z)
    (base args : gmap string pyval) :
  (forall k, k <> "controls" -> args !! k = base !! k) ->
  duration_based secs nsec base -> duration_based secs nsec args.
Proof.
  intros Hk (H1 & H2 & H3). unfold duration_based.
  rewrite !Hk by discriminate. auto.
Qed.

(** C5, as the code has it.  In the case in which [_begin_args] opens a run
    without taking events (inside a plan, mode other than [on], state other
    than [Open]), [control.begin] is handed [events=1], and neither
    [l3t_events] nor a duration, whatever the arguments and the stored
    configuration are.  Outside this case the arguments of [control.begin]
    follow the call's arguments before the stored configuration: an
    [events] argument bounds the run by events; without it a [duration]
    argument bounds it by duration, whatever is stored; with neither, the
    stored events, then the stored duration decide; and when nothing is set
    the run is started with [events=0].  An event count goes under
    [l3t_events] instead of [events] when the resolved [use_l3t] is true. *)
Theorem begin_args_precedence (events duration use_l3t controls : pyval)
    (w w1 w' : World) (mode : pyval) (st : PydaqState)
    (args : gmap string pyval) :
  let self := daq w in
  let config := read_configuration self in
  py_getitem config "mode" = Ok mode ->
  state endpoint w = (Ok st, w1) ->
  _begin_args int_of_str endpoint events duration use_l3t controls w =
  (Ok args, w') ->
  if opens_without_events self mode st
  then event_based (VInt 1) false args
  else
    (is_None events = false ->
     exists b, resolved_l3t self use_l3t = Ok b /\ event_based events b args)
    /\ (is_None events = true -> is_None duration = false ->
        exists secs nsec,
          py_int int_of_str duration = Ok secs
          /\ duration_based secs nsec args)
    /\ (is_None events = true -> is_None duration = true ->
        forall stored_events stored_duration,
          config !! "events" = Some stored_events ->
          config !! "duration" = Some stored_duration ->
          (is_None stored_events = false ->
           exists b,
             resolved_l3t self use_l3t = Ok b
             /\ event_based stored_events b args)
          /\ (is_None stored_events = true ->
              is_None stored_duration = false ->
              exists secs nsec,
                py_int int_of_str stored_duration = Ok secs
                /\ duration_based secs nsec args)
          /\ (is_None stored_events = true ->
              is_None stored_duration = true ->
              event_based (VInt 0) false args)).
Proof.
  cbv zeta. intros Hmode Hstate Hrun.
  unfold _begin_args in Hrun.
  unfold bind at 1, get_daq at 1 in Hrun.
  unfold bind at 1, lift at 1 in Hrun. rewrite Hmode in Hrun.
  unfold bind at 1 in Hrun. rewrite Hstate in Hrun. unfold lift in Hrun.
  destruct (opens_without_events (daq w) mode st) eqn:Hopen.
  { (* a run is opened without taking events *)
    injection Hrun as Hrun _.
    cbn [is_None andb negb rbind truthy] in Hrun.
    pose proof (fun k Hk => controls_step _ _ _ _ k Hk Hrun) as Hk.
    eapply event_based_controls; [exact Hk|].
    repeat split; reflexivity. }
  injection Hrun as Hrun _.
  destruct (is_None events && is_None duration) eqn:Hboth.
  - apply andb_true_iff in Hboth. destruct Hboth as [He Hd].
    rewrite He, Hd.
    split; [discriminate|]. split; [discriminate|]. intros _ _ se sd Hse Hsd.
    unfold py_getitem in Hrun at 1 2. rewrite Hse, Hsd in Hrun.
    cbn [rbind] in Hrun.
    match type of Hrun with
    | rbind ?t _ = _ => destruct t as [base|] eqn:Ht; [|discriminate Hrun]
    end.
    cbn [rbind] in Hrun.
    pose proof (fun k Hk => controls_step _ _ _ _ k Hk Hrun) as Hk.
    destruct (target_step _ _ _ _ _ Ht) as (T1 & T2 & T3).
    split; [|split].
    + intros Hn. destruct (T1 Hn) as (b & Hb & Hev).
      exists b. split; [exact Hb|]. eapply event_based_controls; eauto.
    + intros Hn Hn2. destruct (T2 Hn Hn2) as (secs & nsec & Hs & Hdu).
      exists secs, nsec. split; [exact Hs|].
      eapply duration_based_controls; eauto.
    + intros Hn Hn2. eapply event_based_controls; eauto.
  - cbn [rbind] in Hrun.
    match type of Hrun with
    | rbind ?t _ = _ => destruct t as [base|] eqn:Ht; [|discriminate Hrun]
    end.
    cbn [rbind] in Hrun.
    pose proof (fun k Hk => controls_step _ _ _ _ k Hk Hrun) as Hk.
    destruct (target_step _ _ _ _ _ Ht) as (T1 & T2 & T3).
    split; [|split].
    + intros Hn. destruct (T1 Hn) as (b & Hb & Hev).
      exists b. split; [exact Hb|]. eapply event_based_controls; eauto.
    + intros Hn Hn2. destruct (T2 Hn Hn2) as (secs & nsec & Hs & Hdu).
      exists secs, nsec. split; [exact Hs|].
      eapply duration_based_controls; eauto.
    + intros Hn Hn2. rewrite Hn, Hn2 in Hboth. discriminate Hboth.
Qed.

End BeginArgs.

Lemma begin_args_precedence_witness :
  let run :=
    _begin_args int_of_digits (answering 2) VNone VNone VNone VNone
      configured_world in
  let direct :=
    _begin_args int_of_digits (answering 2) VNone (VInt 5) VNone VNone
      configured_world in
  let in_plan :=
    _begin_args int_of_digits (answering 2) (VInt 5000) (VInt 5) (VBool true)
      VNone attached_world in
  opens_without_events (daq configured_world) (VMode on) Configured = false
  /\ (exists args, fst run = Ok args /\ event_based (VInt 100) false args)
  /\ (exists args, fst direct = Ok args /\ duration_based 5 0 args)
  /\ opens_without_events (daq attached_world) (VMode manual) Configured = true
  /\ (exists args, fst in_plan = Ok args /\ event_based (VInt 1) false args).
Proof.
  cbv zeta. split; [reflexivity|].
  pose (w1 := record_call control_state configured_world).
  assert (Hstate : state (answering 2) configured_world = (Ok Configured, w1)).
  { vm_compute. reflexivity. }
  assert (Hmode : py_getitem (read_configuration (daq configured_world)) "mode" = Ok (VMode on)).
  { vm_compute. reflexivity. }
  split; [|split; [|split; [reflexivity|]]].
  - assert (Hrun : _begin_args int_of_digits (answering 2) VNone VNone VNone VNone
      configured_world = (Ok (<["events" := VInt 100]> ∅), w1)).
    { vm_compute. reflexivity. }
    eexists. split; [rewrite Hrun; reflexivity|].
    destruct (begin_args_precedence int_of_digits (answering 2) VNone VNone VNone VNone
                configured_world w1 w1 (VMode on) Configured _ Hmode Hstate Hrun)
      as (_ & _ & H).
    destruct (H eq_refl eq_refl (VInt 100) VNone) as (H1 & _).
    { vm_compute; reflexivity. } { vm_compute; reflexivity. }
    destruct (H1 eq_refl) as (b & Hb & Hev).
    vm_compute in Hb. injection Hb as <-. exact Hev.
  - assert (Hrun : _begin_args int_of_digits (answering 2) VNone (VInt 5) VNone VNone
      configured_world = (Ok (<["duration" := VIntList [5; 0]]> ∅), w1)).
    { vm_compute. reflexivity. }
    eexists. split; [rewrite Hrun; reflexivity|].
    destruct (begin_args_precedence int_of_digits (answering 2) VNone (VInt 5) VNone VNone
                configured_world w1 w1 (VMode on) Configured _ Hmode Hstate Hrun)
      as (_ & H & _).
    destruct (H eq_refl eq_refl) as (secs & nsec & Hs & Hd).
    injection Hs as <-.
    destruct Hd as (Hd1 & Hd2 & Hd3).
    rewrite lookup_insert_eq in Hd1. injection Hd1 as <-.
    repeat split; assumption.
  - pose (w2 := record_call control_state attached_world).
    assert (Hrun : _begin_args int_of_digits (answering 2) (VInt 5000) (VInt 5)
                     (VBool true) VNone attached_world
                   = (Ok (<["events" := VInt 1]> ∅), w2)).
    { vm_compute. reflexivity. }
    eexists. split; [rewrite Hrun; reflexivity|].
    exact (begin_args_precedence int_of_digits (answering 2) (VInt 5000)
             (VInt 5) (VBool true) VNone attached_world w2 w2 (VMode manual)
             Configured _ eq_refl eq_refl Hrun).
Defined.

(** C5, counterexample.  Inside a plan, in mode [manual] and with the
    endpoint in state [Configured], an explicit [duration=5] is set aside:
    [control.begin] is handed [events=1] and no duration. *)
Lemma explicit_duration_set_aside_in_plan :
  let run :=
    _begin_args int_of_digits (answering 2) VNone (VInt 5) VNone VNone
      attached_world in
  opens_without_events (daq attached_world) (VMode manual) Configured = true
  /\ match fst run with
     | Ok args =>
         args !! "events" = Some (VInt 1) /\ args !! "duration" = None
     | Err _ => False
     end.
Proof.
  vm_compute. repeat split; reflexivity.
Qed.

(** ** The thread of [kickoff] *)

Lemma countdown_BEGIN_TIMEOUT :
  countdown 21 BEGIN_TIMEOUT = true /\ countdown 20 BEGIN_TIMEOUT = false.
Proof. split; vm_compute; reflexivity. Qed.

Lemma polled_refl (w : World) : polled 0 w w.
Proof. repeat split. Qed.

Lemma polled_trans (j k : nat) (w w1 w2 : World) :
  polled j w w1 -> polled k w1 w2 -> polled (k + j) w w2.
Proof.
  intros (A1 & A2 & A3 & A4) (B1 & B2 & B3 & B4).
  repeat split; try congruence.
  rewrite B4, A4, repeat_app, <- app_assoc. reflexivity.
Qed.


Section Thread.
Variable int_of_str : string -> option Z.
Variable endpoint : list call -> call -> result Z.

Lemma state_run (w : World) :
  state endpoint w =
  if connected (daq w)
  then (rbind (endpoint (calls w) control_state) _state_enum,
        record_call control_state w)
  else (Ok Disconnected, w).
Proof.
  unfold state, bind at 1, get_daq at 1, connected.
  destruct (_control (daq w)); [|reflexivity].
  unfold on_control, bind, rpc, lift.
  destruct (endpoint (calls w) control_state); reflexivity.
Qed.

Lemma state_polled (w : World) :
  exists k, (k <= 1)%nat /\ polled k w (snd (state endpoint w)).
Proof.
  rewrite state_run. destruct (connected (daq w)).
  - exists 1%nat. split; [lia|]. repeat split.
  - exists 0%nat. split; [lia|]. apply polled_refl.
Qed.

Lemma wait_ready_spec (n : nat) :
  forall (tmo : float), countdown n tmo = true ->
  forall (fuel : nat) (w : World), (n <= fuel)%nat ->
    wait_ready endpoint fuel tmo w = wait_ready endpoint n tmo w
    /\ fst (wait_ready endpoint fuel tmo w) <> Ok None
    /\ exists k, (k < n)%nat /\ polled k w (snd (wait_ready endpoint fuel tmo w)).
Proof.
  induction n as [|n IH]; intros tmo Hc fuel w Hle; [discriminate Hc|].
  destruct fuel as [|fuel]; [lia|].
  assert (Hle' : (n <= fuel)%nat) by lia.
  cbn [wait_ready countdown] in *.
  destruct (PrimFloat.ltb 0 tmo).
  - assert (Hn : (1 <= n)%nat) by (destruct n; [discriminate Hc | lia]).
    unfold bind.
    destruct (state_polled w) as (j & Hj & Hp).
    destruct (state endpoint w) as [[st|e] w1]; cbn [snd] in Hp.
    + destruct (in_Configured_Open st).
      * split; [reflexivity|]. split; [discriminate|].
        exists j. split; [lia|exact Hp].
      * destruct (IH _ Hc fuel w1 Hle') as (E & N & k & Hk & Hp2).
        split; [exact E|]. split; [exact N|].
        exists (k + j)%nat. split; [lia|].
        eapply polled_trans; eauto.
    + split; [reflexivity|]. split; [discriminate|].
      exists j. split; [lia|exact Hp].
  - split; [reflexivity|]. split; [discriminate|].
    exists 0%nat. split; [lia|apply polled_refl].
Qed.





Lemma state_never_ready (w : World) :
  never_ready endpoint ->
  exists st, fst (state endpoint w) = Ok st /\ in_Configured_Open st = false.
Proof.
  intros H. rewrite state_run. destruct (connected (daq w)).
  - destruct (H (calls w)) as (num & st & -> & Hst & Hr).
    exists st. cbn [rbind fst]. split; assumption.
  - exists Disconnected. split; reflexivity.
Qed.

Lemma wait_ready_never_ready (fuel : nat) :
  never_ready endpoint ->
  forall (tmo : float) (w : World),
    is_Ok (fst (wait_ready endpoint fuel tmo w)) = true.
Proof.
  intros H. induction fuel as [|fuel IH]; intros tmo w; [reflexivity|].
  cbn [wait_ready]. destruct (PrimFloat.ltb 0 tmo); [|reflexivity].
  unfold bind. destruct (state_never_ready w H) as (st & Hst & Hr).
  destruct (state endpoint w) as [r w1]. cbn [fst] in Hst. subst r.
  rewrite Hr. apply IH.
Qed.


(** With an endpoint that is never ready and a connected controller, the
    loop polls as long as the countdown lasts. *)
Lemma wait_ready_exact (n : nat) :
  never_ready endpoint ->
  forall (tmo : float) (w : World) (fuel : nat),
    connected (daq w) = true ->
    countdown (S n) tmo = true ->
    countdown n tmo = false ->
    (S n <= fuel)%nat ->
    polled n w (snd (wait_ready endpoint fuel tmo w)).
Proof.
  intros Hnr. induction n as [|n IH]; intros tmo w fuel Hc H1 H0 Hf.
  - destruct fuel as [|fuel]; [lia|]. cbn [wait_ready countdown] in *.
    destruct (PrimFloat.ltb 0 tmo); [discriminate H1|]. apply polled_refl.
  - destruct fuel as [|fuel]; [lia|].
    assert (Hf' : (S n <= fuel)%nat) by lia.
    change (countdown (S (S n)) tmo)
      with (if PrimFloat.ltb 0 tmo
            then countdown (S n) (PrimFloat.sub tmo dt) else true) in H1.
    change (countdown (S n) tmo)
      with (if PrimFloat.ltb 0 tmo
            then countdown n (PrimFloat.sub tmo dt) else true) in H0.
    cbn [wait_ready].
    destruct (PrimFloat.ltb 0 tmo); [|discriminate H0].
    unfold bind. rewrite state_run, Hc.
    destruct (Hnr (calls w)) as (num & st & -> & Hst & Hr).
    cbn [rbind]. rewrite Hst, Hr.
    assert (Hc1 : connected (daq (record_call control_state w)) = true)
      by exact Hc.
    pose proof (IH _ (record_call control_state w) fuel Hc1 H1 H0 Hf') as Hp.
    replace (S n) with (n + 1)%nat by lia.
    eapply polled_trans; [|exact Hp]. repeat split.
Qed.

(** An unconnected controller is never asked: the loop leaves the world as
    it is. *)
Lemma wait_ready_disconnected (fuel : nat) :
  forall (tmo : float) (w : World),
    connected (daq w) = false ->
    snd (wait_ready endpoint fuel tmo w) = w.
Proof.
  induction fuel as [|fuel IH]; intros tmo w Hc; [reflexivity|].
  cbn [wait_ready]. destruct (PrimFloat.ltb 0 tmo); [|reflexivity].
  unfold bind. rewrite state_run, Hc. cbn [in_Configured_Open].
  apply IH. exact Hc.
Qed.

(** The world after [_begin_args]: the state is queried once the mode is
    read, and nothing else is done to the world. *)
Lemma begin_args_world (e du l c : pyval) (w : World) :
  snd (_begin_args int_of_str endpoint e du l c w) =
  if is_Ok (py_getitem (read_configuration (daq w)) "mode")
  then snd (state endpoint w)
  else w.
Proof.
  unfold _begin_args, bind at 1, get_daq at 1, bind at 1, lift at 1.
  destruct (py_getitem _ "mode"); [|reflexivity].
  unfold bind at 1. destruct (state endpoint w) as [[st|err] w1];
    reflexivity.
Qed.

(** An exception of [_begin_args] ends the thread at once. *)
Lemma start_thread_begin_args_Err (fuel : nat) (control : option Control)
    (status : nat) (e du l c : pyval) (w : World) (err : exn) :
  fst (_begin_args int_of_str endpoint e du l c w) = Err err ->
  start_thread int_of_str endpoint fuel control status e du l c w =
  (Err err, snd (_begin_args int_of_str endpoint e du l c w)).
Proof.
  intros H. unfold start_thread, bind at 1.
  destruct (_begin_args _ _ _ _ _ _ w) as [[args|err'] w0];
    cbn [fst snd] in *; [discriminate H|].
  injection H as ->. reflexivity.
Qed.

(** The calls of the thread when the endpoint is never ready. *)
Lemma start_thread_never_ready_calls (fuel : nat) (control : option Control)
    (status : nat) (e du l c : pyval) (w : World) :
  (21 <= fuel)%nat ->
  never_ready endpoint ->
  is_Ok (fst (_begin_args int_of_str endpoint e du l c w)) = true ->
  calls (snd (start_thread int_of_str endpoint fuel control status e du l c w))
  = ((if connected (daq w) then repeat control_state 22 else []) ++ calls w)%list.
Proof.
  intros Hf Hnr Hb.
  pose proof (begin_args_world e du l c w) as Hw.
  unfold start_thread, bind at 1.
  destruct (_begin_args _ _ _ _ _ _ w) as [[args|err] w0] eqn:Hrun;
    [|discriminate Hb].
  cbn [snd] in Hw.
  assert (Hmode : is_Ok (py_getitem (read_configuration (daq w)) "mode") = true).
  { unfold _begin_args, bind at 1, get_daq at 1, bind at 1, lift at 1 in Hrun.
    destruct (py_getitem _ "mode"); [reflexivity|discriminate Hrun]. }
  rewrite Hmode, state_run in Hw.
  cbv zeta. unfold bind at 1.
  pose proof (wait_ready_never_ready fuel Hnr BEGIN_TIMEOUT w0) as Hok.
  destruct (wait_ready_spec 21 BEGIN_TIMEOUT
              (proj1 countdown_BEGIN_TIMEOUT) fuel w0 Hf) as (_ & N & _).
  destruct (connected (daq w)) eqn:Hc; cbn [snd] in Hw; subst w0.
  - assert (Hc1 : connected (daq (record_call control_state w)) = true)
      by exact Hc.
    pose proof (wait_ready_exact 20 Hnr BEGIN_TIMEOUT
                  (record_call control_state w) fuel Hc1
                  (proj1 countdown_BEGIN_TIMEOUT)
                  (proj2 countdown_BEGIN_TIMEOUT) Hf) as Hp.
    destruct (wait_ready endpoint fuel BEGIN_TIMEOUT _) as [[[[]|]|err] w2];
      cbn [fst snd] in *; [|congruence|discriminate Hok].
    destruct Hp as (Hd & _ & _ & Hcalls).
    unfold bind at 1. rewrite state_run, Hd. cbn [daq record_call]. rewrite Hc.
    destruct (Hnr (calls w2)) as (num & st & -> & Hst & Hr).
    cbn [rbind]. rewrite Hst, Hr.
    unfold bind, _finished, ret. cbn [snd calls record_call].
    rewrite Hcalls. reflexivity.
  - pose proof (wait_ready_disconnected fuel BEGIN_TIMEOUT w Hc) as Hp.
    destruct (wait_ready endpoint fuel BEGIN_TIMEOUT w) as [[[[]|]|err] w2];
      cbn [fst snd] in *; [|congruence|discriminate Hok].
    subst w2. unfold bind at 1. rewrite state_run, Hc.
    cbn [in_Configured_Open]. reflexivity.
Qed.

End Thread.

Lemma kickoff_gives_kicked_world :
  kickoff sample_class_attr (answering 2) VNone VNone VNone VNone
    configured_world = (Ok 0%nat, kicked_world).
Proof. vm_compute. reflexivity. Qed.

Lemma answering_1_never_ready : never_ready (answering 1).
Proof. intros h. exists 1, Connected. repeat split. Qed.



(** When the endpoint's [begin] raises, the thread ends with the exception
    and the handle is left pending. *)
Lemma begin_failure_leaves_handle_pending :
  let ep := failing_on is_control_begin (Exn RuntimeError "begin failed") 2 in
  let run :=
    start_thread int_of_digits ep 30 (_control (daq kicked_world)) 0
      VNone VNone VNone VNone kicked_world in
  raises RuntimeError (fst run)
  /\ statuses (snd run) = [None].
Proof.
  vm_compute. repeat split; reflexivity.
Qed.

(** * Further properties of the methods *)

Section MoreConnection.
Variable endpoint : list call -> call -> result Z.

(** X1.  [connect()] never raises.  It leaves the stored configuration, the
    statuses and the threads as they were.  On a connected controller it
    changes nothing and calls nothing; otherwise the controller is connected
    afterwards exactly when both [pydaq.Control(...)] and its [connect()]
    returned, and [connect()] is called only when the constructor
    returned. *)
Theorem connect_outcome (w : World) :
  let run := connect endpoint w in
  let c0 := pydaq_Control (_host (daq w)) (_plat (daq w)) in
  fst run = Ok tt
  /\ _config (daq (snd run)) = _config (daq w)
  /\ statuses (snd run) = statuses w
  /\ threads (snd run) = threads w
  /\ if connected (daq w)
     then snd run = w
     else
       connected (daq (snd run)) =
       is_Ok (endpoint (calls w) c0)
       && is_Ok (endpoint (c0 :: calls w) control_connect)
       /\ calls (snd run) =
          if is_Ok (endpoint (calls w) c0)
          then control_connect :: c0 :: calls w
          else c0 :: calls w.
Proof.
  cbv zeta. split; [apply connect_returns|].
  unfold connected. destruct (_control (daq w)) eqn:Hc.
  - unfold connect, bind, get_daq. rewrite Hc. repeat split.
  - rewrite connect_run by exact Hc. cbn [snd].
    destruct (endpoint (calls w) _);
      [destruct (endpoint (_ :: calls w) control_connect)|];
      repeat split.
Qed.
End MoreConnection.

Section MoreConfigure.
Variable class_attr : string -> option pyval.
Variable endpoint : list call -> call -> result Z.

Lemma configure_prelude_Ok (du r l c m mode : pyval) (w : World)
    (config_args : gmap string pyval) :
  configure_prelude class_attr endpoint du r l c m w = Ok (mode, config_args) ->
  (exists num st,
      endpoint (calls w) control_state = Ok num
      /\ _state_enum num = Ok st
      /\ in_Connected_Configured st = true)
  /\ _check_duration du = Ok tt
  /\ (exists m0,
        (if is_None m
         then py_getitem (read_configuration (daq w)) "mode"
         else Ok m) = Ok m0
        /\ resolve_mode class_attr m0 = Ok mode)
  /\ _config_args (daq w) r l c = Ok config_args.
Proof.
  unfold configure_prelude. intros H.
  destruct (endpoint (calls w) control_state) as [num|]; [|discriminate H].
  cbn [rbind] in H.
  destruct (_state_enum num) as [st|] eqn:Hst; [|discriminate H].
  cbn [rbind] in H.
  destruct (in_Connected_Configured st) eqn:Hin; [|discriminate H].
  cbn [negb rbind] in H.
  destruct (_check_duration du) as [[]|]; [|discriminate H].
  cbn [rbind] in H.
  destruct (if is_None m then _ else _) as [m0|]; [|discriminate H].
  cbn [rbind] in H.
  destruct (resolve_mode class_attr m0) as [m2|] eqn:Hres; [|discriminate H].
  cbn [rbind] in H.
  destruct (_config_args (daq w) r l c) as [cargs|]; [|discriminate H].
  cbn [rbind] in H. injection H as <- <-.
  split; [exists num, st; auto|]. split; [reflexivity|].
  split; [exists m0; auto|reflexivity].
Qed.

(** X4.  If the last call that [configure] made is the endpoint's
    [configure] and it returned, the stored configuration is exactly the
    arguments of the request with the resolved mode, [configure] returns the
    pair of the configuration read before and this one, and
    [read_configuration()] afterwards is this one. *)
Theorem configure_success_stores_request (e du r l c m : pyval) (w : World)
    (res : result (gmap string pyval * gmap string pyval)) (w' : World) :
  configure class_attr endpoint e du r l c m w = (res, w') ->
  (exists config_args h z,
      calls w' = control_configure config_args :: h
      /\ endpoint h (control_configure config_args) = Ok z) ->
  exists m0 mode,
    (if is_None m
     then py_getitem (read_configuration (daq w)) "mode"
     else Ok m) = Ok m0
    /\ resolve_mode class_attr m0 = Ok mode
    /\ _config (daq w') = Some (config_dict e du r l c mode)
    /\ res = Ok (read_configuration (daq w), config_dict e du r l c mode)
    /\ read_configuration (daq w') = config_dict e du r l c mode.
Proof.
  intros Hrun (cargs & h & z & Hcalls & Hret).
  unfold configure in Hrun. rewrite check_connect_run in Hrun.
  cbv zeta in Hrun.
  pose proof (after_check_connect_frame endpoint w) as Hf. cbv zeta in Hf.
  destruct Hf as (Hcfg & _ & _ & _ & Hcase).
  set (w0 := after_check_connect endpoint w) in *.
  assert (Hold : read_configuration (daq w0) = read_configuration (daq w))
    by (unfold read_configuration; rewrite Hcfg; reflexivity).
  destruct (connected (daq w0)) eqn:Hconn.
  - unfold connected in Hconn.
    destruct (_control (daq w0)) as [ctl|] eqn:Hctl; [|discriminate].
    rewrite (configure_body_run _ _ e du r l c m w0 ctl Hctl) in Hrun.
    cbv zeta in Hrun.
    destruct (configure_prelude _ _ _ _ _ _ _ _) as [[m2 cargs']|perr] eqn:Hp.
    + destruct (configure_prelude_Ok _ _ _ _ _ _ _ _ Hp)
        as (_ & _ & (m0 & Hm0 & Hres) & _).
      rewrite Hold in Hm0.
      destruct (endpoint _ (control_configure cargs')) eqn:He;
        injection Hrun as <- <-; simpl in Hcalls.
      * exists m0, m2. rewrite Hold. repeat split; assumption.
      * injection Hcalls as -> <-. simpl in He. congruence.
    + injection Hrun as <- <-. simpl in Hcalls. discriminate.
  - injection Hrun as <- <-.
    destruct Hcase as [[_ Hc]|[_ (c0 & h0 & Hc0 & Hkind & _)]].
    + subst w0. unfold after_check_connect in Hconn. rewrite Hc in Hconn.
      congruence.
    + rewrite Hc0 in Hcalls. injection Hcalls as -> _.
      destruct Hkind as [?|(? & ? & ?)]; discriminate.
Qed.

(** X5.  On a connected controller whose endpoint reports a state other
    than [Connected] and [Configured], [configure] raises the
    [RuntimeError] that names this state, whatever its arguments, and has
    made no call besides the state query. *)
Theorem configure_state_conflict (e du r l c m : pyval) (w : World)
    (ctl : Control) (num : Z) (st : PydaqState) :
  _control (daq w) = Some ctl ->
  endpoint (calls w) control_state = Ok num ->
  _state_enum num = Ok st ->
  in_Connected_Configured st = false ->
  configure class_attr endpoint e du r l c m w =
  (Err (Exn RuntimeError
          ("Cannot configure from state " ++ PydaqState_name st ++ "!")),
   record_call control_state w).
Proof.
  intros Hctl Hnum Hst Hin.
  assert (Hconn : connected (daq w) = true)
    by (unfold connected; rewrite Hctl; reflexivity).
  unfold configure. rewrite check_connect_run. cbv zeta.
  unfold after_check_connect. rewrite Hconn, Hconn.
  rewrite (configure_body_run _ _ e du r l c m w ctl Hctl). cbv zeta.
  unfold configure_prelude. rewrite Hnum. cbn [rbind]. rewrite Hst.
  cbn [rbind]. rewrite Hin. reflexivity.
Qed.

(** X8.  On a connected and configured controller, with a duration that
    passes [_check_duration], [kickoff] calls nothing on the endpoint: it
    creates one status, unfinished, starts one thread that holds the
    controller's handle, this status and the four arguments, and returns the
    status. *)
Theorem kickoff_starts_one_thread (e du l c : pyval) (w : World)
    (ctl : Control) (config : gmap string pyval) :
  _control (daq w) = Some ctl ->
  _config (daq w) = Some config ->
  _check_duration du = Ok tt ->
  kickoff class_attr endpoint e du l c w =
  (Ok (List.length (statuses w)),
   {| daq := daq w; calls := calls w;
      statuses := (statuses w ++ [None])%list;
      threads :=
        start_thread_args (Some ctl) (List.length (statuses w)) e du l c
        :: threads w |}).
Proof.
  intros Hctl Hcfg Hdu.
  assert (Hconn : connected (daq w) = true)
    by (unfold connected; rewrite Hctl; reflexivity).
  unfold kickoff. rewrite check_connect_run. cbv zeta.
  unfold after_check_connect. rewrite Hconn, Hconn.
  unfold kickoff_body, bind, lift, get_daq, configured, new_Status,
    Thread_start, ret.
  rewrite Hdu, Hcfg. cbn [negb daq]. rewrite Hctl. reflexivity.
Qed.

(** X9.  On an unconfigured controller [kickoff] never returns: the
    [configure()] it calls first has no [mode] argument and raises (or the
    connection or the duration check fails before).  No status is created,
    no thread is started, and the controller stays unconfigured. *)
Theorem kickoff_unconfigured_never_starts (e du l c : pyval) (w : World) :
  let run := kickoff class_attr endpoint e du l c (unconfigured w) in
  is_Ok (fst run) = false
  /\ statuses (snd run) = statuses w
  /\ threads (snd run) = threads w
  /\ _config (daq (snd run)) = None.
Proof.
  cbv zeta.
  destruct (kickoff class_attr endpoint e du l c (unconfigured w))
    as [res w'] eqn:Hrun.
  cbn [fst snd].
  unfold kickoff in Hrun. rewrite check_connect_run in Hrun. cbv zeta in Hrun.
  pose proof (after_check_connect_frame endpoint (unconfigured w)) as Hf.
  cbv zeta in Hf. destruct Hf as (Hcfg & _ & Hst & Hth & _).
  set (w0 := after_check_connect endpoint (unconfigured w)) in *.
  change (_config (daq (unconfigured w)))
    with (@None (gmap string pyval)) in Hcfg.
  change (statuses (unconfigured w)) with (statuses w) in Hst.
  change (threads (unconfigured w)) with (threads w) in Hth.
  destruct (connected (daq w0)) eqn:Hconn;
    [|injection Hrun as <- <-; auto].
  unfold kickoff_body, bind at 1, lift at 1 in Hrun.
  destruct (_check_duration du); [|injection Hrun as <- <-; auto].
  unfold bind at 1, get_daq at 1, configured in Hrun.
  rewrite Hcfg in Hrun. cbn [negb] in Hrun.
  unfold bind at 1 2 in Hrun.
  assert (Hp : is_Ok (configure_prelude class_attr endpoint VNone (VBool false)
                        (VBool false) VNone VNone
                        (after_check_connect endpoint w0)) = false).
  { apply (configure_prelude_mode _ _ _ _ _ _ _ (VMode on)); [|discriminate].
    cbn [is_None]. unfold read_configuration.
    destruct (after_check_connect_frame endpoint w0) as (-> & _).
    rewrite Hcfg. reflexivity. }
  pose proof (configure_stops_in_prelude class_attr endpoint VNone VNone
                (VBool false) (VBool false) VNone VNone w0 Hp) as H.
  cbv zeta in H. destruct H as (H1 & _ & H3 & H4 & H5).
  destruct (configure _ _ _ _ _ _ _ _ w0) as [[x|err] w1];
    [discriminate H1|].
  cbn [fst snd] in *. injection Hrun as <- <-.
  repeat split; congruence.
Qed.

(** X10.  Given a control handle, [finish_thread] calls the endpoint's
    [end()] once: when it returns, or raises a [RuntimeError], the thread
    resolves its status to success; any other exception ends the thread and
    leaves the statuses as they were.  Given [None], which is what
    [_get_end_status] hands it on an unconnected controller, the thread ends
    in [AttributeError]: nothing is called and nothing changes. *)
Theorem finish_thread_outcome (control : option Control) (status : nat)
    (w : World) :
  (status < List.length (statuses w))%nat ->
  let run := finish_thread endpoint control status w in
  threads (snd (_get_end_status w)) =
  finish_thread_args (_control (daq w)) (List.length (statuses w))
  :: threads w
  /\ match control with
     | None => raises AttributeError (fst run) /\ snd run = w
     | Some _ =>
         calls (snd run) = control_end :: calls w
         /\ match endpoint (calls w) control_end with
            | Ok _ =>
                fst run = Ok tt
                /\ statuses (snd run) !! status = Some (Some true)
            | Err err =>
                if isinstance_exn err RuntimeError
                then fst run = Ok tt
                     /\ statuses (snd run) !! status = Some (Some true)
                else fst run = Err err /\ statuses (snd run) = statuses w
            end
     end.
Proof.
  intros Hs. cbv zeta. split; [reflexivity|].
  destruct (finish_thread endpoint control status w) as [res w'] eqn:Hrun.
  cbn [fst snd].
  unfold finish_thread, bind, try_except, on_control, rpc, _finished, ret,
    caught_by in Hrun.
  cbn [existsb] in Hrun. rewrite ?orb_false_r in Hrun.
  destruct control as [ctl|].
  - destruct (endpoint (calls w) control_end) as [z|err].
    + injection Hrun as <- <-. cbn. split; [reflexivity|].
      split; [reflexivity|]. apply list_lookup_insert_eq. exact Hs.
    + destruct (isinstance_exn err RuntimeError);
        injection Hrun as <- <-; cbn; split; try reflexivity.
      * split; [reflexivity|]. apply list_lookup_insert_eq. exact Hs.
      * split; reflexivity.
  - cbn in Hrun. injection Hrun as <- <-. split; reflexivity.
Qed.
End MoreConfigure.

Lemma ctrl_pairs_spec (items : list (string * device)) :
  forall pairs, ctrl_pairs items = Ok pairs ->
    map fst pairs = map fst items
    /\ Forall2 (fun it p => device_reading (snd it) = Ok (snd p)) items pairs.
Proof.
  induction items as [|[key dev] rest IH]; intros pairs H; simpl in H.
  - injection H as <-. split; [reflexivity|constructor].
  - destruct (device_reading dev) as [val|] eqn:Hd; [|discriminate H].
    cbn [rbind] in H.
    destruct (ctrl_pairs rest) as [tl|]; [|discriminate H].
    cbn [rbind] in H. injection H as <-.
    destruct (IH tl eq_refl) as [IH1 IH2].
    split; [simpl; f_equal; exact IH1|constructor; [exact Hd|exact IH2]].
Qed.

Lemma ctrl_pairs_fails_iff (items : list (string * device)) :
  is_Ok (ctrl_pairs items) =
  forallb (fun it => is_Ok (device_reading (snd it))) items.
Proof.
  induction items as [|[key dev] rest IH]; [reflexivity|].
  simpl. destruct (device_reading dev); [|reflexivity].
  cbn [rbind is_Ok andb]. rewrite <- IH.
  destruct (ctrl_pairs rest); reflexivity.
Qed.

(** X7.  When [_ctrl_arg] returns, it returns one pair per device, with
    the keys of the dictionary in its order, and the value of each pair is
    the device's [position] when it has one and its [value] otherwise. *)
Theorem ctrl_arg_pairs (items : list (string * device)) (v : pyval) :
  _ctrl_arg (VDevices items) = Ok v ->
  exists pairs,
    v = VPairs pairs
    /\ map fst pairs = map fst items
    /\ forall (i : nat) (key : string) (dev : device),
        items !! i = Some (key, dev) ->
        exists val,
          pairs !! i = Some (key, val)
          /\ match position dev with
             | Some p => val = p
             | None => value dev = Some val
             end.
Proof.
  unfold _ctrl_arg. intros H.
  destruct (ctrl_pairs items) as [pairs|] eqn:Hp; [|discriminate H].
  cbn [rbind] in H. injection H as <-.
  destruct (ctrl_pairs_spec items pairs Hp) as [Hk Hf].
  exists pairs. split; [reflexivity|]. split; [exact Hk|].
  intros i key dev Hi.
  destruct (Forall2_lookup_l _ _ _ _ _ Hf Hi) as ([k' val] & Hpi & Hd).
  cbn [snd] in Hd.
  assert (Hkey : k' = key).
  { assert (H1 : map fst pairs !! i = Some k')
      by (rewrite list_lookup_fmap, Hpi; reflexivity).
    assert (H2 : map fst items !! i = Some key)
      by (rewrite list_lookup_fmap, Hi; reflexivity).
    rewrite Hk in H1. congruence. }
  subst k'. exists val. split; [exact Hpi|].
  unfold device_reading in Hd.
  destruct (position dev); [injection Hd as <-; reflexivity|].
  destruct (value dev); [injection Hd as <-; reflexivity|discriminate Hd].
Qed.

(** X6.  The arguments that [_config_args] returns map no key to [None] and
    have no key besides [record], [events], [l3t_events] and [controls].
    Exactly one of [l3t_events] and [events] is there, with 0: the first
    when [use_l3t] is true.  [controls] is there exactly when the argument
    is not [None], with its pairs.  [record] is the argument, or the stored
    value when the argument is [None] (left out when that is [None]
    too). *)
Theorem config_args_shape (self : Daq) (record use_l3t controls : pyval)
    (args : gmap string pyval) :
  _config_args self record use_l3t controls = Ok args ->
  (forall k v, args !! k = Some v ->
     is_None v = false
     /\ (k = "record" \/ k = "events" \/ k = "l3t_events" \/ k = "controls"))
  /\ args !! (if truthy use_l3t then "l3t_events" else "events") = Some (VInt 0)
  /\ args !! (if truthy use_l3t then "events" else "l3t_events") = None
  /\ (if is_None controls
      then args !! "controls" = None
      else exists c, _ctrl_arg controls = Ok c /\ args !! "controls" = Some c)
  /\ (if is_None record
      then forall stored,
          read_configuration self !! "record" = Some stored ->
          args !! "record" = if is_None stored then None else Some stored
      else args !! "record" = Some record).
Proof.
  unfold _config_args. intros H.
  set (P := fun kv : string * pyval => is_None kv.2 = false) in *.
  destruct (if is_None record then _ else _) as [a1|] eqn:H1;
    [|discriminate H].
  cbn [rbind] in H.
  set (a2 := if truthy use_l3t then _ else _) in H.
  destruct (if negb (is_None controls) then _ else _) as [a3|] eqn:H3;
    [|discriminate H].
  cbn [rbind] in H. injection H as <-.
  (* what the three steps put in the dictionary *)
  assert (E1 : exists rec, a1 = <["record" := rec]> ∅
                 /\ if is_None record
                    then py_getitem (read_configuration self) "record" = Ok rec
                    else rec = record).
  { destruct (is_None record).
    - destruct (py_getitem _ "record") as [rec|]; [|discriminate H1].
      cbn [rbind] in H1. injection H1 as <-. eauto.
    - injection H1 as <-. eauto. }
  destruct E1 as (rec & -> & Hrec).
  assert (E3 : (is_None controls = true /\ a3 = a2)
               \/ (is_None controls = false
                   /\ exists c, _ctrl_arg controls = Ok c
                        /\ a3 = <["controls" := c]> a2
                        /\ is_None c = false)).
  { destruct (is_None controls); cbn [negb] in H3.
    - left. injection H3 as <-. auto.
    - right. split; [reflexivity|].
      destruct (_ctrl_arg controls) as [c|] eqn:Hc; [|discriminate H3].
      cbn [rbind] in H3. injection H3 as <-. exists c.
      repeat split.
      unfold _ctrl_arg in Hc. destruct controls; try discriminate Hc.
      destruct (ctrl_pairs d); [|discriminate Hc].
      injection Hc as <-. reflexivity. }
  split; [|split; [|split; [|split]]].
  - intros k v Hkv. apply map_lookup_filter_Some in Hkv.
    destruct Hkv as [Hkv HP]. split; [exact HP|].
    destruct E3 as [[_ ->]|(_ & c & _ & -> & _)]; subst a2;
      destruct (truthy use_l3t);
      repeat (apply lookup_insert_Some in Hkv;
              destruct Hkv as [[<- _]|[_ Hkv]]; [tauto|]);
      rewrite lookup_empty in Hkv; discriminate Hkv.
  - apply map_lookup_filter_Some. split; [|destruct (truthy use_l3t); reflexivity].
    destruct E3 as [[_ ->]|(_ & c & _ & -> & _)]; subst a2;
      destruct (truthy use_l3t); simplify_map_eq; reflexivity.
  - apply map_lookup_filter_None. left.
    destruct E3 as [[_ ->]|(_ & c & _ & -> & _)]; subst a2;
      destruct (truthy use_l3t); simplify_map_eq; reflexivity.
  - destruct E3 as [[-> ->]|(-> & c & Hc & -> & Hn)].
    + apply map_lookup_filter_None. left. subst a2.
      destruct (truthy use_l3t); simplify_map_eq; reflexivity.
    + exists c. split; [exact Hc|]. apply map_lookup_filter_Some.
      split; [simplify_map_eq; reflexivity|exact Hn].
  - assert (Hl : a3 !! "record" = Some rec).
    { destruct E3 as [[_ ->]|(_ & c & _ & -> & _)]; subst a2;
        destruct (truthy use_l3t); simplify_map_eq; reflexivity. }
    destruct (is_None record) eqn:Hr.
    + intros stored Hs. unfold py_getitem in Hrec. rewrite Hs in Hrec.
      injection Hrec as <-.
      destruct (is_None stored) eqn:Hn.
      * apply map_lookup_filter_None. right. intros x Hx.
        rewrite Hl in Hx. injection Hx as <-. unfold P. cbn. congruence.
      * apply map_lookup_filter_Some. split; [exact Hl|exact Hn].
    + subst rec. apply map_lookup_filter_Some. split; [exact Hl|exact Hr].
Qed.

Section MoreBeginArgs.
Variable int_of_str : string -> option Z.
Variable endpoint : list call -> call -> result Z.

(** What [_begin_args] computes once the mode is read and the state is
    known. *)
Lemma begin_args_inv (events duration use_l3t controls : pyval)
    (w w' : World) (args : gmap string pyval) :
  _begin_args int_of_str endpoint events duration use_l3t controls w =
  (Ok args, w') ->
  exists mode st ev du l3t base,
    py_getitem (read_configuration (daq w)) "mode" = Ok mode
    /\ state endpoint w = (Ok st, w')
    /\ (ev, du, l3t) =
       (if opens_without_events (daq w) mode st
        then (VInt 1, VNone, VBool false)
        else (events, duration, use_l3t))
    /\ (exists ev' du',
          (if is_None ev && is_None du
           then
             let? e := py_getitem (read_configuration (daq w)) "events" in
             let? d := py_getitem (read_configuration (daq w)) "duration" in
             Ok (e, d)
           else Ok (ev, du)) = Ok (ev', du')
          /\ (if negb (is_None ev')
              then
                let? use_l3t :=
                  (if is_None l3t && configured (daq w)
                   then py_getitem (read_configuration (daq w)) "use_l3t"
                   else Ok l3t) in
                if truthy use_l3t
                then Ok (<["l3t_events" := ev']> (∅ : gmap string pyval))
                else Ok (<["events" := ev']> ∅)
              else if negb (is_None du')
              then
                let? secs := py_int int_of_str du' in
                let? frac := py_sub_int du' secs in
                let? scaled := py_mul_float frac 1e9%float in
                let? nsec := py_int int_of_str scaled in
                Ok (<["duration" := VIntList [secs; nsec]]> ∅)
              else Ok (<["events" := VInt 0]> ∅)) = Ok base)
    /\ (if is_None controls
        then
          let? ctrl_dict := py_getitem (read_configuration (daq w)) "controls" in
          if negb (is_None ctrl_dict)
          then let? c := _ctrl_arg ctrl_dict in Ok (<["controls" := c]> base)
          else Ok base
        else
          let? c := _ctrl_arg controls in Ok (<["controls" := c]> base))
       = Ok args.
Proof.
  intros Hrun. unfold _begin_args in Hrun.
  unfold bind at 1, get_daq at 1 in Hrun.
  unfold bind at 1, lift at 1 in Hrun.
  destruct (py_getitem _ "mode") as [mode|] eqn:Hmode;
    [|discriminate Hrun].
  unfold bind at 1 in Hrun.
  destruct (state endpoint w) as [[st|err] w1];
    [|discriminate Hrun].
  unfold lift in Hrun. injection Hrun as Hrun <-.
  destruct (opens_without_events (daq w) mode st) eqn:Hopen.
  - match type of Hrun with
    | rbind ?t _ = _ => destruct t as [[ev' du']|] eqn:Ht; [|discriminate Hrun]
    end.
    cbn [rbind] in Hrun.
    match type of Hrun with
    | rbind ?t _ = _ => destruct t as [base|] eqn:Hb; [|discriminate Hrun]
    end.
    cbn [rbind] in Hrun.
    exists mode, st, (VInt 1), VNone, (VBool false), base.
    rewrite Hopen. split; [reflexivity|]. split; [reflexivity|].
    split; [reflexivity|]. split; [|exact Hrun].
    exists ev', du'. split; assumption.
  - match type of Hrun with
    | rbind ?t _ = _ => destruct t as [[ev' du']|] eqn:Ht; [|discriminate Hrun]
    end.
    cbn [rbind] in Hrun.
    match type of Hrun with
    | rbind ?t _ = _ => destruct t as [base|] eqn:Hb; [|discriminate Hrun]
    end.
    cbn [rbind] in Hrun.
    exists mode, st, events, duration, use_l3t, base.
    rewrite Hopen. split; [reflexivity|]. split; [reflexivity|].
    split; [reflexivity|]. split; [|exact Hrun].
    exists ev', du'. split; assumption.
Qed.

Lemma target_no_controls (self : Daq) (ev du l3t : pyval)
    (base : gmap string pyval) :
  (if negb (is_None ev)
   then
     let? use_l3t :=
       (if is_None l3t && configured self
        then py_getitem (read_configuration self) "use_l3t"
        else Ok l3t) in
     if truthy use_l3t
     then Ok (<["l3t_events" := ev]> (∅ : gmap string pyval))
     else Ok (<["events" := ev]> ∅)
   else if negb (is_None du)
   then
     let? secs := py_int int_of_str du in
     let? frac := py_sub_int du secs in
     let? scaled := py_mul_float frac 1e9%float in
     let? nsec := py_int int_of_str scaled in
     Ok (<["duration" := VIntList [secs; nsec]]> ∅)
   else Ok (<["events" := VInt 0]> ∅)) = Ok base ->
  base !! "controls" = None.
Proof.
  intros H.
  destruct (negb (is_None ev)).
  - destruct (if is_None l3t && configured self then _ else _) as [v|];
      [|discriminate H].
    cbn [rbind] in H. destruct (truthy v); injection H as <-; reflexivity.
  - destruct (negb (is_None du)); [|injection H as <-; reflexivity].
    destruct (py_int int_of_str du) as [secs|]; [|discriminate H].
    cbn [rbind] in H.
    destruct (py_sub_int du secs) as [frac|]; [|discriminate H].
    cbn [rbind] in H.
    destruct (py_mul_float frac _) as [scaled|]; [|discriminate H].
    cbn [rbind] in H.
    destruct (py_int int_of_str scaled) as [nsec|]; [|discriminate H].
    cbn [rbind] in H. injection H as <-. reflexivity.
Qed.

(** X11.  Whenever [_begin_args] returns, inside a plan or not, the key
    [controls] follows the argument before the stored configuration: the
    pairs of the [controls] argument when it is not [None], else the pairs
    of the stored dictionary, and no key when that is [None] too. *)
Theorem begin_args_controls (events duration use_l3t controls : pyval)
    (w w' : World) (args : gmap string pyval) :
  _begin_args int_of_str endpoint events duration use_l3t controls w =
  (Ok args, w') ->
  if is_None controls
  then
    forall stored,
      read_configuration (daq w) !! "controls" = Some stored ->
      if is_None stored
      then args !! "controls" = None
      else exists c, _ctrl_arg stored = Ok c /\ args !! "controls" = Some c
  else exists c, _ctrl_arg controls = Ok c /\ args !! "controls" = Some c.
Proof.
  intros Hrun.
  destruct (begin_args_inv _ _ _ _ _ _ _ Hrun)
    as (mode & st & ev & du & l3t & base & _ & _ & _ & (ev' & du' & _ & Hb) & Hc).
  pose proof (target_no_controls _ _ _ _ _ Hb) as Hnone.
  destruct (is_None controls).
  - intros stored Hs. unfold py_getitem in Hc. rewrite Hs in Hc.
    cbn [rbind] in Hc. destruct (is_None stored); cbn [negb] in Hc.
    + injection Hc as <-. exact Hnone.
    + destruct (_ctrl_arg stored) as [c|]; [|discriminate Hc].
      cbn [rbind] in Hc. injection Hc as <-. exists c.
      split; [reflexivity|apply lookup_insert_eq].
  - destruct (_ctrl_arg controls) as [c|]; [|discriminate Hc].
    cbn [rbind] in Hc. injection Hc as <-. exists c.
    split; [reflexivity|apply lookup_insert_eq].
Qed.

(** X12.  Outside a plan, a duration given as an int [z] and no event count
    make [_begin_args] return [duration=[z, 0]], whole seconds and no
    nanoseconds, and neither [events] nor [l3t_events]. *)
Theorem begin_args_whole_seconds (z : Z) (use_l3t controls : pyval)
    (w w' : World) (args : gmap string pyval) :
  _is_bluesky (daq w) = false ->
  _begin_args int_of_str endpoint VNone (VInt z) use_l3t controls w =
  (Ok args, w') ->
  args !! "duration" = Some (VIntList [z; 0])
  /\ args !! "events" = None
  /\ args !! "l3t_events" = None.
Proof.
  intros Hb Hrun.
  destruct (begin_args_inv _ _ _ _ _ _ _ Hrun)
    as (mode & st & ev & du & l3t & base & _ & _ & Hov
        & (ev' & du' & Hdef & Htarget) & Hc).
  unfold opens_without_events in Hov. rewrite Hb in Hov. cbn in Hov.
  injection Hov as -> -> ->. cbn in Hdef. injection Hdef as <- <-.
  cbn [is_None negb py_int rbind py_sub_int] in Htarget.
  rewrite Z.sub_diag in Htarget.
  change (py_mul_float (VInt 0) 1000000000%float)
    with (Ok (VFloat (PrimFloat.mul (float_of_Z 0) 1000000000%float)))
    in Htarget.
  cbn [rbind py_int] in Htarget.
  change (int_of_float (PrimFloat.mul (float_of_Z 0) 1000000000%float))
    with (Ok 0 : result Z) in Htarget.
  cbn [rbind] in Htarget. injection Htarget as <-.
  pose proof (fun k Hk => controls_step _ _ _ _ k Hk Hc) as Hk.
  rewrite !Hk by discriminate. repeat split; reflexivity.
Qed.
End MoreBeginArgs.

Lemma bind_Ok_inv {A B} (m : M A) (k : A -> M B) (w w' : World) (b : B) :
  bind m k w = (Ok b, w') ->
  exists a w1, m w = (Ok a, w1) /\ k a w1 = (Ok b, w').
Proof.
  unfold bind. destruct (m w) as [[a|e] w1]; [eauto|discriminate].
Qed.

Lemma world_eta (w : World) :
  with_daq (with_is_bluesky (_is_bluesky (daq w)) (daq w)) w = w.
Proof. destruct w as [[] ? ? ?]. reflexivity. Qed.

(** X20.  [calib_cycle()] never yields a message and always ends in an
    exception: its checks raise when no controller is registered or the
    controller is not inside a plan, and past them the two-argument call to
    [any] raises, so the delegation to [kickoff] and [complete] is never
    reached. *)
Theorem calib_cycle_never_yields (kickoff_plan complete_plan : Daq -> list Msg)
    (g : Globals) :
  fst (calib_cycle kickoff_plan complete_plan g) = []
  /\ is_Ok (snd (calib_cycle kickoff_plan complete_plan g)) = false.
Proof.
  unfold calib_cycle.
  destruct (_daq_instance g) as [d|]; [|split; reflexivity].
  destruct (negb (_is_bluesky d)); [split; reflexivity|].
  destruct (py_getitem (read_configuration d) "events"); [|split; reflexivity].
  cbn [rbind].
  destruct (py_getitem (read_configuration d) "duration"); split; reflexivity.
Qed.

Section MoreInteractive.
Variable class_attr : string -> option pyval.
Variable endpoint : list call -> call -> result Z.
Variable status_wait : nat -> pyval -> M unit.

Lemma stop_run (w : World) (ctl : Control) :
  _control (daq w) = Some ctl ->
  stop endpoint w =
  (rbind (endpoint (calls w) control_stop) (fun _ => Ok tt),
   record_call control_stop w).
Proof.
  intros Hctl.
  assert (Hconn : connected (daq w) = true)
    by (unfold connected; rewrite Hctl; reflexivity).
  unfold stop. rewrite check_connect_run. cbv zeta.
  unfold after_check_connect. rewrite Hconn, Hconn.
  unfold bind, get_daq, on_control, rpc, ret. rewrite Hctl.
  destruct (endpoint (calls w) control_stop); reflexivity.
Qed.

(** X14.  [pause()] asks for the state; it calls the endpoint's [stop()],
    once, exactly when the state is ['Running'], and returns what that call
    does; in every other state it does nothing more, and an exception of the
    state query propagates. *)
Theorem pause_stops_only_when_Running (w : World) :
  let queried := state endpoint w in
  let run := pause endpoint w in
  match fst queried with
  | Ok Running =>
      run =
      (rbind (endpoint (control_state :: calls w) control_stop)
         (fun _ => Ok tt),
       record_call control_stop (record_call control_state w))
  | Ok _ => run = (Ok tt, snd queried)
  | Err e => run = (Err e, snd queried)
  end.
Proof.
  cbv zeta. unfold pause, bind. rewrite state_run.
  unfold connected. destruct (_control (daq w)) as [ctl|] eqn:Hctl;
    [|reflexivity].
  cbn [fst snd].
  destruct (rbind (endpoint (calls w) control_state) _state_enum)
    as [[]|err]; try reflexivity.
  cbn [is_Running]. apply (stop_run (record_call control_state w) ctl).
  exact Hctl.
Qed.

(** X15.  On a connected controller [wait(timeout)] asks for the state.
    Only in state ['Running'] does it create a status and start the end
    thread, and then it waits on exactly this status with the given timeout;
    in every other state it returns at once, whatever [status_wait] would
    do. *)
Theorem wait_creates_status_only_when_Running (timeout : pyval) (w : World)
    (ctl : Control) (num : Z) (st : PydaqState) :
  _control (daq w) = Some ctl ->
  endpoint (calls w) control_state = Ok num ->
  _state_enum num = Ok st ->
  wait endpoint status_wait timeout w =
  if is_Running st
  then
    status_wait (List.length (statuses w)) timeout
      {| daq := daq w; calls := control_state :: calls w;
         statuses := (statuses w ++ [None])%list;
         threads :=
           finish_thread_args (Some ctl) (List.length (statuses w))
           :: threads w |}
  else (Ok tt, record_call control_state w).
Proof.
  intros Hctl Hnum Hst.
  assert (Hconn : connected (daq w) = true)
    by (unfold connected; rewrite Hctl; reflexivity).
  unfold wait. rewrite check_connect_run. cbv zeta.
  unfold after_check_connect. rewrite Hconn, Hconn.
  unfold wait_body, bind at 1. rewrite state_run, Hconn, Hnum.
  cbn [rbind]. rewrite Hst.
  destruct (is_Running st); [|reflexivity].
  unfold bind, _get_end_status, bind, new_Status, get_daq, Thread_start, ret.
  cbn. rewrite Hctl. reflexivity.
Qed.

(** X16.  On a connected controller [end_run()] calls the endpoint's
    [stop()] and then its [endrun()]; when [stop()] raises, [endrun()] is
    not called.  [collect()] does what [end_run()] does and yields
    nothing. *)
Theorem end_run_stops_first (w : World) (ctl : Control) :
  _control (daq w) = Some ctl ->
  end_run endpoint w =
  match endpoint (calls w) control_stop with
  | Err e => (Err e, record_call control_stop w)
  | Ok _ =>
      (rbind (endpoint (control_stop :: calls w) control_endrun)
         (fun _ => Ok tt),
       record_call control_endrun (record_call control_stop w))
  end
  /\ collect endpoint w =
     (rbind (fst (end_run endpoint w)) (fun _ => Ok []),
      snd (end_run endpoint w)).
Proof.
  intros Hctl.
  assert (Hconn : connected (daq w) = true)
    by (unfold connected; rewrite Hctl; reflexivity).
  split.
  - unfold end_run. rewrite check_connect_run. cbv zeta.
    unfold after_check_connect. rewrite Hconn, Hconn.
    unfold end_run_body, bind at 1. rewrite (stop_run w ctl Hctl).
    destruct (endpoint (calls w) control_stop); [|reflexivity].
    cbn [rbind]. unfold bind, get_daq, on_control, rpc, ret. cbn.
    rewrite Hctl. cbn [calls record_call].
    destruct (endpoint (control_stop :: calls w) control_endrun); reflexivity.
  - unfold collect, bind, ret.
    destruct (end_run endpoint w) as [[[]|e] w1]; reflexivity.
Qed.

(** X17.  When [__del__] returns, the controller is disconnected and
    unconfigured, and its state is ['Disconnected']. *)
Theorem del_leaves_disconnected (w w' : World) :
  __del__ endpoint w = (Ok tt, w') ->
  connected (daq w') = false
  /\ configured (daq w') = false
  /\ state endpoint w' = (Ok Disconnected, w').
Proof.
  unfold __del__. intros H.
  apply bind_Ok_inv in H. destruct H as (st & w1 & _ & H).
  apply bind_Ok_inv in H. destruct H as (x & w2 & _ & H).
  rewrite disconnect_run in H. cbv zeta in H.
  assert (Hc : _control (daq w') = None /\ _config (daq w') = None).
  { destruct (_control (daq w2)).
    - destruct (endpoint (calls w2) control_disconnect); [|discriminate H].
      injection H as <-. split; reflexivity.
    - injection H as <-. split; reflexivity. }
  destruct Hc as [Hc1 Hc2]. unfold connected, configured.
  rewrite Hc1, Hc2. repeat split.
  unfold state, bind, get_daq, connected. rewrite Hc1. reflexivity.
Qed.

Lemma interpret_message_quiet (msg : Msg) (w : World) (mode : pyval) :
  py_getitem (read_configuration (daq w)) "mode" = Ok mode ->
  eq_mode_on mode = false \/ is_step msg = false ->
  _interpret_message class_attr endpoint status_wait msg w =
  (Ok tt,
   with_daq (with_is_bluesky (flag_after [msg] (_is_bluesky (daq w))) (daq w))
     w).
Proof.
  intros Hmode Hq. unfold _interpret_message, flag_after, is_step in *.
  cbn [fold_left existsb].
  destruct (String.eqb (command msg) "open_run") eqn:E1.
  { cbn [orb negb]. unfold bind, get_daq, set_is_bluesky, lift. cbn.
    rewrite Hmode.
    apply String.eqb_eq in E1. rewrite E1. cbn.
    destruct (eq_mode_on mode); reflexivity. }
  destruct (String.eqb (command msg) "close_run") eqn:E2.
  { cbn [orb negb]. unfold bind, get_daq, set_is_bluesky, lift. cbn.
    rewrite Hmode.
    apply String.eqb_eq in E2. rewrite E2. cbn.
    destruct (eq_mode_on mode); reflexivity. }
  destruct (String.eqb (command msg) "create") eqn:E3.
  { cbn [orb negb]. unfold bind at 1 2, get_daq, ret, lift.
    unfold bind at 1. rewrite Hmode.
    destruct Hq as [-> | Hq]; [|discriminate Hq].
    rewrite world_eta. reflexivity. }
  destruct (String.eqb (command msg) "save") eqn:E4.
  { cbn [orb negb]. unfold bind at 1 2, get_daq, ret, lift.
    unfold bind at 1. rewrite Hmode.
    destruct Hq as [-> | Hq]; [|discriminate Hq].
    rewrite world_eta. reflexivity. }
  cbn [orb negb]. unfold ret. rewrite world_eta. reflexivity.
Qed.

(** X18.  When the mode is not [on], or no message is a [create] or a
    [save], [_interpret_message] never raises and never calls the endpoint
    over a whole list of messages: all it does is to set [_is_bluesky], to
    true at an [open_run] and to false at a [close_run], so that the last
    of these decides the flag. *)
Theorem interpret_all_tracks_flag (msgs : list Msg) :
  forall (w : World) (mode : pyval),
    py_getitem (read_configuration (daq w)) "mode" = Ok mode ->
    eq_mode_on mode = false \/ existsb is_step msgs = false ->
    interpret_all class_attr endpoint status_wait msgs w =
    (Ok tt,
     with_daq
       (with_is_bluesky (flag_after msgs (_is_bluesky (daq w))) (daq w)) w).
Proof.
  induction msgs as [|msg rest IH]; intros w mode Hmode Hq.
  - cbn. unfold ret. rewrite world_eta. reflexivity.
  - cbn [interpret_all]. unfold bind.
    rewrite (interpret_message_quiet msg w mode Hmode).
    2:{ destruct Hq as [Hq|Hq]; [left; exact Hq|].
        right. cbn [existsb] in Hq. apply orb_false_iff in Hq. tauto. }
    rewrite (IH _ mode).
    + reflexivity.
    + exact Hmode.
    + destruct Hq as [Hq|Hq]; [left; exact Hq|].
      right. cbn [existsb] in Hq. apply orb_false_iff in Hq. tauto.
Qed.

(** X19.  In mode [on], which is also the mode of an unconfigured
    controller, [_interpret_message] ends a [save] message in the
    [TypeError] of the two-argument call to [any]: neither [wait] nor
    [pause] is called and the world is as it was. *)
Theorem save_in_mode_on_raises (w : World) (e du r l c : pyval) :
  let save := {| command := "save" |} in
  let stored := with_stored e du r l c (VMode on) w in
  _interpret_message class_attr endpoint status_wait save stored =
  (Err (Exn TypeError "any() takes exactly one argument"), stored)
  /\ _interpret_message class_attr endpoint status_wait save (unconfigured w) =
     (Err (Exn TypeError "any() takes exactly one argument"), unconfigured w).
Proof.
  cbv zeta. split.
  - unfold _interpret_message. cbn [command existsb String.eqb Ascii.eqb
      Bool.eqb orb negb].
    unfold bind, get_daq, ret, lift. cbn [daq with_stored with_daq].
    unfold read_configuration. cbn [_config with_config]. unfold py_getitem.
    rewrite config_dict_mode, config_dict_events, config_dict_duration.
    reflexivity.
  - reflexivity.
Qed.
End MoreInteractive.

Section MoreState.
Variable int_of_str : string -> option Z.
Variable endpoint : list call -> call -> result Z.

(** X2.  A method decorated with [check_connect] runs as it is on a
    connected controller; on an unconnected one it runs in the world that
    [connect()] leaves when the connection is made, and otherwise it is not
    run at all: the call raises [RuntimeError('Could not connect to DAQ')]
    in the world that the failed attempt leaves. *)
Theorem check_connect_outcome {A} (f : M A) (w : World) :
  let c0 := pydaq_Control (_host (daq w)) (_plat (daq w)) in
  let attempt := snd (connect endpoint w) in
  check_connect endpoint f w =
  if connected (daq w)
  then f w
  else if is_Ok (endpoint (calls w) c0)
          && is_Ok (endpoint (c0 :: calls w) control_connect)
  then f attempt
  else (Err (Exn RuntimeError "Could not connect to DAQ"), attempt).
Proof.
  cbv zeta. rewrite check_connect_run. cbv zeta.
  unfold after_check_connect.
  destruct (connected (daq w)) eqn:Hc; [rewrite Hc; reflexivity|].
  unfold connected in Hc.
  destruct (_control (daq w)) eqn:Hctl; [discriminate Hc|].
  rewrite connect_run by exact Hctl. cbn [snd].
  destruct (endpoint (calls w) _);
    [destruct (endpoint (_ :: calls w) control_connect)|]; reflexivity.
Qed.

(** X3.  The [state] property of an unconnected controller is
    ['Disconnected'] and the endpoint is not called.  On a connected one the
    endpoint is asked once: a number from 0 to 4 gives the state of that
    value, any other number raises [ValueError], and an exception of the
    endpoint propagates. *)
Theorem state_outcome (w : World) :
  if connected (daq w)
  then
    snd (state endpoint w) = record_call control_state w
    /\ match endpoint (calls w) control_state with
       | Ok num =>
           if (0 <=? num) && (num <=? 4)
           then exists s,
               fst (state endpoint w) = Ok s /\ PydaqState_value s = num
           else raises ValueError (fst (state endpoint w))
       | Err e => fst (state endpoint w) = Err e
       end
  else state endpoint w = (Ok Disconnected, w).
Proof.
  rewrite state_run. destruct (connected (daq w)); [|reflexivity].
  split; [reflexivity|]. cbn [fst].
  destruct (endpoint (calls w) control_state) as [num|e]; [|reflexivity].
  cbn [rbind].
  destruct ((0 <=? num) && (num <=? 4)) eqn:Hr.
  - apply andb_true_iff in Hr. destruct Hr as [H0 H4].
    apply Z.leb_le in H0. apply Z.leb_le in H4.
    assert (Hn : num = 0 \/ num = 1 \/ num = 2 \/ num = 3 \/ num = 4) by lia.
    destruct Hn as [->|[->|[->|[->| ->]]]]; eexists; split; reflexivity.
  - destruct num as [|p|p]; [discriminate Hr| |reflexivity].
    destruct p as [[[?|?|]|[?|?|]|]|[[?|?|]|[?|?|]|]|];
      try discriminate Hr; reflexivity.
Qed.

(** X13.  On a connected controller whose endpoint answers every state
    query and never with [Configured] or [Open], the thread of [kickoff]
    calls nothing but the state.  When the begin arguments resolve it makes
    exactly 22 calls: one for the begin arguments, 20 in the countdown from
    2 in steps of 0.1, and the last one.  When they do not, the thread ends
    in the exception of [_begin_args] after the one query made there (none
    when the stored configuration has no mode), and no status is
    resolved. *)
Theorem start_thread_polls_22_times (fuel : nat) (control : option Control)
    (status : nat) (e du l c : pyval) (w : World) :
  (21 <= fuel)%nat ->
  never_ready endpoint ->
  connected (daq w) = true ->
  let run :=
    start_thread int_of_str endpoint fuel control status e du l c w in
  match fst (_begin_args int_of_str endpoint e du l c w) with
  | Ok _ => calls (snd run) = (repeat control_state 22 ++ calls w)%list
  | Err err =>
      fst run = Err err
      /\ statuses (snd run) = statuses w
      /\ calls (snd run) =
         if is_Ok (py_getitem (read_configuration (daq w)) "mode")
         then control_state :: calls w
         else calls w
  end.
Proof.
  intros Hf Hnr Hc. cbv zeta.
  destruct (fst (_begin_args int_of_str endpoint e du l c w)) as [args|err]
    eqn:Hb.
  - rewrite (start_thread_never_ready_calls int_of_str endpoint fuel control
               status e du l c w Hf Hnr)
      by (rewrite Hb; reflexivity).
    rewrite Hc. reflexivity.
  - rewrite (start_thread_begin_args_Err int_of_str endpoint fuel control
               status e du l c w err Hb).
    cbn [fst snd]. rewrite begin_args_world, state_run, Hc.
    split; [reflexivity|].
    destruct (is_Ok (py_getitem _ "mode")); split; reflexivity.
Qed.
End MoreState.


Section MoreBegin.
Variable class_attr : string -> option pyval.
Variable endpoint : list call -> call -> result Z.
Variable status_wait : nat -> pyval -> M unit.

Lemma kickoff_run (e du l c : pyval) (w : World) (ctl : Control) :
  _control (daq w) = Some ctl ->
  kickoff class_attr endpoint e du l c w =
  kickoff_body class_attr endpoint e du l c w.
Proof.
  intros Hctl.
  assert (Hconn : connected (daq w) = true)
    by (unfold connected; rewrite Hctl; reflexivity).
  unfold kickoff. rewrite check_connect_run. cbv zeta.
  unfold after_check_connect. rewrite Hconn, Hconn. reflexivity.
Qed.

(** X21.  On a connected and configured controller, with a duration that
    passes [_check_duration], [begin] makes no call to the endpoint before
    it waits: it creates one status and one thread through [kickoff] and
    waits on this status with the timeout [BEGIN_TIMEOUT]; with [wait=False]
    it ends there.  With a duration that fails the check it raises before a
    status exists and never waits. *)
Theorem begin_waits_on_kickoff_status (e du l c : pyval) (w : World)
    (ctl : Control) (config : gmap string pyval) :
  _control (daq w) = Some ctl ->
  _config (daq w) = Some config ->
  match _check_duration du with
  | Ok _ =>
      begin class_attr endpoint status_wait e du l c false w =
      (let! _ :=
         status_wait (List.length (statuses w)) (VFloat BEGIN_TIMEOUT) in
       ret tt)
        {| daq := daq w; calls := calls w;
           statuses := (statuses w ++ [None])%list;
           threads :=
             start_thread_args (Some ctl) (List.length (statuses w)) e du l c
             :: threads w |}
  | Err err =>
      forall wait_too,
        begin class_attr endpoint status_wait e du l c wait_too w = (Err err, w)
  end.
Proof.
  intros Hctl Hcfg.
  destruct (_check_duration du) as [[]|err] eqn:Hdu.
  - unfold begin, bind at 1. rewrite (kickoff_run e du l c w ctl Hctl).
    unfold kickoff_body, bind, lift, get_daq, configured, new_Status,
      Thread_start, ret.
    rewrite Hdu, Hcfg. cbn [negb daq]. rewrite Hctl. reflexivity.
  - intros wait_too. unfold begin, bind at 1.
    rewrite (kickoff_run e du l c w ctl Hctl).
    unfold kickoff_body, bind, lift. rewrite Hdu. reflexivity.
Qed.

(** X22.  On a connected and configured controller [resume()] asks for the
    state.  Only in state ['Open'] does it begin again: it starts one thread
    with no arguments, so that the stored configuration decides the run, and
    waits on its status with the timeout [BEGIN_TIMEOUT].  In every other
    state it returns after the state query. *)
Theorem resume_begins_only_when_Open (w : World) (ctl : Control)
    (config : gmap string pyval) (num : Z) (st : PydaqState) :
  _control (daq w) = Some ctl ->
  _config (daq w) = Some config ->
  endpoint (calls w) control_state = Ok num ->
  _state_enum num = Ok st ->
  resume class_attr endpoint status_wait w =
  if is_Open st
  then
    (let! _ :=
       status_wait (List.length (statuses w)) (VFloat BEGIN_TIMEOUT) in
     ret tt)
      {| daq := daq w; calls := control_state :: calls w;
         statuses := (statuses w ++ [None])%list;
         threads :=
           start_thread_args (Some ctl) (List.length (statuses w))
             VNone VNone VNone VNone
           :: threads w |}
  else (Ok tt, record_call control_state w).
Proof.
  intros Hctl Hcfg Hnum Hst.
  assert (Hconn : connected (daq w) = true)
    by (unfold connected; rewrite Hctl; reflexivity).
  unfold resume, bind at 1. rewrite state_run, Hconn, Hnum.
  cbn [rbind]. rewrite Hst.
  destruct (is_Open st); [|reflexivity].
  unfold begin, bind at 1.
  rewrite (kickoff_run VNone VNone VNone VNone (record_call control_state w)
             ctl Hctl).
  unfold kickoff_body, bind, lift, get_daq, configured, new_Status,
    Thread_start, ret.
  change (daq (record_call control_state w)) with (daq w).
  rewrite Hcfg. cbn. rewrite Hctl. reflexivity.
Qed.
End MoreBegin.

(** ** Sample runs of the further properties *)

Lemma configure_success_stores_request_witness :
  let run :=
    configure sample_class_attr (answering 1) (VInt 120) VNone (VBool true)
      (VBool false) VNone (VStr "manual") connected_world in
  (exists config_args h z,
      calls (snd run) = control_configure config_args :: h
      /\ answering 1 h (control_configure config_args) = Ok z)
  /\ read_configuration (daq (snd run)) =
     config_dict (VInt 120) VNone (VBool true) (VBool false) VNone
       (VMode manual).
Proof.
  cbv zeta.
  assert (H : exists config_args h z,
             calls (snd (configure sample_class_attr (answering 1) (VInt 120)
                           VNone (VBool true) (VBool false) VNone
                           (VStr "manual") connected_world)) =
             control_configure config_args :: h
             /\ answering 1 h (control_configure config_args) = Ok z).
  { eexists _, _, _. split; [vm_compute; reflexivity | reflexivity]. }
  split; [exact H|].
  destruct (configure_success_stores_request _ _ _ _ _ _ _ _ _ _ _
              (surjective_pairing _) H)
    as (m0 & mode & Hm0 & Hres & _ & _ & Hread).
  cbn [is_None] in Hm0. injection Hm0 as <-.
  change (resolve_mode sample_class_attr (VStr "manual"))
    with (Ok (VMode manual) : result pyval) in Hres.
  injection Hres as <-. exact Hread.
Defined.

Lemma configure_state_conflict_witness :
  configure sample_class_attr (answering 4) (VInt 120) (VFloat 0.5)
    (VBool true) (VBool false) VNone (VInt 7) connected_world =
  (Err (Exn RuntimeError "Cannot configure from state Running!"),
   record_call control_state connected_world).
Proof.
  exact (configure_state_conflict sample_class_attr (answering 4) (VInt 120)
           (VFloat 0.5) (VBool true) (VBool false) VNone (VInt 7)
           connected_world {| ctl_host := "daq-host"; ctl_platform := 0 |}
           4 Running eq_refl eq_refl eq_refl eq_refl).
Defined.

Lemma kickoff_starts_one_thread_witness :
  _check_duration (VInt 5) = Ok tt
  /\ fst (kickoff sample_class_attr (answering 2) VNone (VInt 5) VNone VNone
            configured_world) = Ok 0%nat.
Proof.
  split; [reflexivity|].
  rewrite (kickoff_starts_one_thread sample_class_attr (answering 2) VNone
             (VInt 5) VNone VNone configured_world
             {| ctl_host := "daq-host"; ctl_platform := 0 |}
             (config_dict (VInt 100) VNone (VBool false) (VBool false) VNone
                (VMode on))
             eq_refl eq_refl eq_refl).
  reflexivity.
Defined.

Lemma finish_thread_outcome_witness :
  let ep :=
    failing_on (fun c => match c with control_end => true | _ => false end)
      (Exn RuntimeError "not running") 3 in
  let run :=
    finish_thread ep (Some {| ctl_host := "daq-host"; ctl_platform := 0 |}) 0
      kicked_world in
  let orphan := finish_thread ep None 0 kicked_world in
  (0 < List.length (statuses kicked_world))%nat
  /\ fst run = Ok tt
  /\ statuses (snd run) !! 0%nat = Some (Some true)
  /\ raises AttributeError (fst orphan)
  /\ snd orphan = kicked_world.
Proof.
  cbv zeta.
  assert (Hs : (0 < List.length (statuses kicked_world))%nat)
    by (vm_compute; lia).
  split; [exact Hs|].
  destruct (finish_thread_outcome
              (failing_on
                 (fun c => match c with control_end => true | _ => false end)
                 (Exn RuntimeError "not running") 3)
              (Some {| ctl_host := "daq-host"; ctl_platform := 0 |}) 0
              kicked_world Hs) as (_ & _ & H).
  split; [exact (proj1 H)|]. split; [exact (proj2 H)|].
  exact (proj2 (finish_thread_outcome
                  (failing_on
                     (fun c => match c with control_end => true | _ => false end)
                     (Exn RuntimeError "not running") 3)
                  None 0 kicked_world Hs)).
Defined.

Lemma ctrl_arg_pairs_witness :
  let items :=
    [("x", {| position := Some (RInt 3); value := Some (RInt 4) |});
     ("y", {| position := None; value := Some (RStr "in") |})] in
  _ctrl_arg (VDevices items) = Ok (VPairs [("x", RInt 3); ("y", RStr "in")])
  /\ exists pairs,
      VPairs [("x", RInt 3); ("y", RStr "in")] = VPairs pairs
      /\ map fst pairs = ["x"; "y"].
Proof.
  cbv zeta. split; [reflexivity|].
  destruct (ctrl_arg_pairs
              [("x", {| position := Some (RInt 3); value := Some (RInt 4) |});
               ("y", {| position := None; value := Some (RStr "in") |})]
              (VPairs [("x", RInt 3); ("y", RStr "in")]) eq_refl)
    as (pairs & Hv & Hk & _).
  exists pairs. split; [exact Hv|exact Hk].
Defined.

Lemma config_args_shape_witness :
  let controls :=
    VDevices [("x", {| position := Some (RInt 3); value := None |})] in
  exists args,
    _config_args sample_daq VNone (VBool true) controls = Ok args
    /\ args !! "l3t_events" = Some (VInt 0)
    /\ args !! "events" = None
    /\ args !! "record" = Some (VBool false).
Proof.
  cbv zeta.
  assert (H : _config_args sample_daq VNone (VBool true)
                (VDevices [("x", {| position := Some (RInt 3); value := None |})])
              = Ok (<["controls" := VPairs [("x", RInt 3)]]>
                      (<["l3t_events" := VInt 0]>
                         (<["record" := VBool false]> ∅))))
    by (vm_compute; reflexivity).
  eexists. split; [exact H|].
  destruct (config_args_shape _ _ _ _ _ H) as (_ & H1 & H2 & _ & H4).
  split; [exact H1|]. split; [exact H2|].
  exact (H4 (VBool false) eq_refl).
Defined.

Lemma begin_args_controls_witness :
  let controls :=
    VDevices [("x", {| position := Some (RInt 3); value := None |})] in
  exists args c,
    fst (_begin_args int_of_digits (answering 2) VNone VNone VNone controls
           attached_world) = Ok args
    /\ _ctrl_arg controls = Ok c
    /\ args !! "controls" = Some c.
Proof.
  cbv zeta.
  assert (H : _begin_args int_of_digits (answering 2) VNone VNone VNone
                (VDevices [("x", {| position := Some (RInt 3); value := None |})])
                attached_world
              = (Ok (<["controls" := VPairs [("x", RInt 3)]]>
                       (<["events" := VInt 1]> ∅)),
                 record_call control_state attached_world))
    by (vm_compute; reflexivity).
  destruct (begin_args_controls _ _ _ _ _ _ _ _ _ H) as (c & Hc & Hl).
  eexists _, c. rewrite H. split; [reflexivity|]. split; assumption.
Defined.

Lemma begin_args_whole_seconds_witness :
  _is_bluesky (daq configured_world) = false
  /\ exists args,
      fst (_begin_args int_of_digits (answering 2) VNone (VInt 5) VNone VNone
             configured_world) = Ok args
      /\ args !! "duration" = Some (VIntList [5; 0]).
Proof.
  split; [reflexivity|].
  assert (H : _begin_args int_of_digits (answering 2) VNone (VInt 5) VNone
                VNone configured_world
              = (Ok (<["duration" := VIntList [5; 0]]> ∅),
                 record_call control_state configured_world))
    by (vm_compute; reflexivity).
  eexists. rewrite H. split; [reflexivity|].
  exact (proj1 (begin_args_whole_seconds int_of_digits (answering 2) 5 VNone
                  VNone configured_world _ _ eq_refl H)).
Defined.

Lemma start_thread_polls_22_times_witness :
  let run :=
    start_thread int_of_digits (answering 1) 30 (_control (daq kicked_world))
      0 VNone VNone VNone VNone kicked_world in
  let unbounded :=
    start_thread int_of_digits (answering 1) 30 (_control (daq kicked_world))
      0 VNone (VFloat infinity) VNone VNone kicked_world in
  (21 <= 30)%nat
  /\ never_ready (answering 1)
  /\ connected (daq kicked_world) = true
  /\ calls (snd run) = repeat control_state 22
  /\ raises OverflowError (fst unbounded)
  /\ statuses (snd unbounded) = [None]
  /\ calls (snd unbounded) = [control_state].
Proof.
  cbv zeta.
  assert (H30 : (21 <= 30)%nat) by lia.
  split; [exact H30|]. split; [exact answering_1_never_ready|].
  split; [reflexivity|]. split.
  - pose proof (start_thread_polls_22_times int_of_digits (answering 1) 30
                  (_control (daq kicked_world)) 0 VNone VNone VNone VNone
                  kicked_world H30 answering_1_never_ready eq_refl) as H.
    cbv zeta in H.
    assert (Hb : fst (_begin_args int_of_digits (answering 1) VNone VNone
                        VNone VNone kicked_world)
                 = Ok (<["events" := VInt 100]> ∅))
      by (vm_compute; reflexivity).
    rewrite Hb in H. rewrite H. reflexivity.
  - pose proof (start_thread_polls_22_times int_of_digits (answering 1) 30
                  (_control (daq kicked_world)) 0 VNone (VFloat infinity)
                  VNone VNone kicked_world H30 answering_1_never_ready
                  eq_refl) as H.
    cbv zeta in H.
    assert (Hb : fst (_begin_args int_of_digits (answering 1) VNone
                        (VFloat infinity) VNone VNone kicked_world)
                 = Err (Exn OverflowError
                          "cannot convert float infinity to integer"))
      by (vm_compute; reflexivity).
    rewrite Hb in H. destruct H as (H1 & H2 & H3).
    rewrite H1, H2, H3. repeat split.
Defined.

Lemma wait_creates_status_only_when_Running_witness :
  let sw := fun (_ : nat) (_ : pyval) => ret tt in
  let run := wait (answering 4) sw VNone connected_world in
  fst run = Ok tt
  /\ statuses (snd run) = [None]
  /\ wait (answering 2) sw VNone connected_world =
     (Ok tt, record_call control_state connected_world).
Proof.
  cbv zeta.
  rewrite (wait_creates_status_only_when_Running (answering 4)
             (fun _ _ => ret tt) VNone connected_world
             {| ctl_host := "daq-host"; ctl_platform := 0 |} 4 Running
             eq_refl eq_refl eq_refl).
  rewrite (wait_creates_status_only_when_Running (answering 2)
             (fun _ _ => ret tt) VNone connected_world
             {| ctl_host := "daq-host"; ctl_platform := 0 |} 2 Configured
             eq_refl eq_refl eq_refl).
  repeat split.
Defined.

Lemma end_run_stops_first_witness :
  calls (snd (end_run (answering 3) connected_world)) =
  [control_endrun; control_stop]
  /\ fst (collect (answering 3) connected_world) = Ok [].
Proof.
  destruct (end_run_stops_first (answering 3) connected_world
              {| ctl_host := "daq-host"; ctl_platform := 0 |} eq_refl)
    as [H1 H2].
  rewrite H2, H1. split; reflexivity.
Defined.

Lemma del_leaves_disconnected_witness :
  let run := __del__ (answering 3) configured_world in
  fst run = Ok tt
  /\ connected (daq configured_world) = true
  /\ connected (daq (snd run)) = false
  /\ configured (daq (snd run)) = false.
Proof.
  cbv zeta.
  assert (H : fst (__del__ (answering 3) configured_world) = Ok tt)
    by (vm_compute; reflexivity).
  split; [exact H|]. split; [reflexivity|].
  destruct (del_leaves_disconnected (answering 3) configured_world
              (snd (__del__ (answering 3) configured_world)))
    as (H1 & H2 & _).
  - rewrite <- H. symmetry. apply surjective_pairing.
  - split; assumption.
Defined.

Lemma interpret_all_tracks_flag_witness :
  let msgs :=
    [ {| command := "open_run" |}; {| command := "create" |};
      {| command := "save" |}; {| command := "set" |};
      {| command := "close_run" |} ] in
  let sw := fun (_ : nat) (_ : pyval) => ret tt in
  py_getitem (read_configuration (daq attached_world)) "mode" =
  Ok (VMode manual)
  /\ fst (interpret_all sample_class_attr (answering 2) sw msgs attached_world)
     = Ok tt
  /\ _is_bluesky
       (daq (snd (interpret_all sample_class_attr (answering 2) sw msgs
                    attached_world))) = false.
Proof.
  cbv zeta.
  assert (Hm : py_getitem (read_configuration (daq attached_world)) "mode" =
               Ok (VMode manual)) by (vm_compute; reflexivity).
  split; [exact Hm|].
  rewrite (interpret_all_tracks_flag sample_class_attr (answering 2)
             (fun _ _ => ret tt) _ attached_world (VMode manual) Hm
             (or_introl eq_refl)).
  split; reflexivity.
Defined.

Lemma begin_waits_on_kickoff_status_witness :
  let sw := fun (_ : nat) (_ : pyval) => ret tt in
  begin sample_class_attr (answering 2) sw VNone (VInt 5) VNone VNone false
    configured_world =
  (Ok tt,
   {| daq := daq configured_world; calls := calls configured_world;
      statuses := (statuses configured_world ++ [None])%list;
      threads :=
        start_thread_args (Some {| ctl_host := "daq-host"; ctl_platform := 0 |})
          (List.length (statuses configured_world)) VNone (VInt 5) VNone VNone
        :: threads configured_world |}).
Proof.
  cbv zeta.
  exact (begin_waits_on_kickoff_status sample_class_attr (answering 2)
           (fun _ _ => ret tt) VNone (VInt 5) VNone VNone configured_world
           {| ctl_host := "daq-host"; ctl_platform := 0 |}
           (config_dict (VInt 100) VNone (VBool false) (VBool false) VNone
              (VMode on))
           eq_refl eq_refl).
Defined.

Lemma resume_begins_only_when_Open_witness :
  let sw := fun (_ : nat) (_ : pyval) => ret tt in
  threads (snd (resume sample_class_attr (answering 3) sw configured_world)) =
  [start_thread_args (Some {| ctl_host := "daq-host"; ctl_platform := 0 |})
     0 VNone VNone VNone VNone]
  /\ resume sample_class_attr (answering 4) sw configured_world =
     (Ok tt, record_call control_state configured_world).
Proof.
  cbv zeta.
  rewrite (resume_begins_only_when_Open sample_class_attr (answering 3)
             (fun _ _ => ret tt) configured_world
             {| ctl_host := "daq-host"; ctl_platform := 0 |}
             (config_dict (VInt 100) VNone (VBool false) (VBool false) VNone
                (VMode on))
             3 Open eq_refl eq_refl eq_refl eq_refl).
  rewrite (resume_begins_only_when_Open sample_class_attr (answering 4)
             (fun _ _ => ret tt) configured_world
             {| ctl_host := "daq-host"; ctl_platform := 0 |}
             (config_dict (VInt 100) VNone (VBool false) (VBool false) VNone
                (VMode on))
             4 Running eq_refl eq_refl eq_refl eq_refl).
  split; reflexivity.
Defined.
